(** * ElevenLabs speech-to-text provider: a shallow embedding

    Source: [core/providers/asr/elevenlabs.py], class [ASRProvider], methods
    [save_audio_to_file] and [speech_to_text].

    The two methods are translated statement by statement into a small
    state-and-exception monad.  The state is the part of the outside world the
    methods touch (files on storage, HTTP requests issued, logger output, the
    random source of [uuid.uuid4]).  What the libraries and the operating
    system answer (the Opus decoder, [wave], [open], [os.remove],
    [requests.post]) is not code of the provider: it is an [Env] the
    definitions are parameterised by. *)

From Stdlib Require Import ZArith String Ascii List Lia Sorted.
From Stdlib.Strings Require Import Byte.
From stdpp Require Import base gmap strings list pretty.

Open Scope string_scope.
Open Scope Z_scope.

Set Warnings "-register-all".

(** ** Python values *)

(** [bytes] objects. *)
Abbreviation bytes := (list byte).

(** A Python [str] is the [string] of the bytes of its UTF-8 encoding. *)

(** The UTF-8 encoding of a code point. *)
Definition utf8 (cp : N) : string :=
  if (cp <? 128)%N then String (ascii_of_N cp) ""
  else if (cp <? 2048)%N then
    String (ascii_of_N (192 + cp / 64))
      (String (ascii_of_N (128 + cp mod 64)) "")
  else if (cp <? 65536)%N then
    String (ascii_of_N (224 + cp / 4096))
      (String (ascii_of_N (128 + (cp / 64) mod 64))
         (String (ascii_of_N (128 + cp mod 64)) ""))
  else
    String (ascii_of_N (240 + cp / 262144))
      (String (ascii_of_N (128 + (cp / 4096) mod 64))
         (String (ascii_of_N (128 + (cp / 64) mod 64))
            (String (ascii_of_N (128 + cp mod 64)) ""))).

(** The code points for which [str.isspace] holds, the ones [str.strip]
    removes: U+0009..U+000D, U+001C..U+0020, U+0085, U+00A0, U+1680,
    U+2000..U+200A, U+2028, U+2029, U+202F, U+205F and U+3000. *)
Definition whitespace : list N :=
  [9; 10; 11; 12; 13; 28; 29; 30; 31; 32; 133; 160; 5760;
   8192; 8193; 8194; 8195; 8196; 8197; 8198; 8199; 8200; 8201; 8202;
   8232; 8233; 8239; 8287; 12288]%N.

Definition space_encodings : list string := map utf8 whitespace.

(** Whether one, two or three bytes are a whitespace character. *)
Definition is_space (w : string) : bool :=
  existsb (String.eqb w) space_encodings.

(** [s.lstrip()]: a whitespace character takes one to three bytes. *)
Fixpoint lstrip (s : string) : string :=
  match s with
  | EmptyString => EmptyString
  | String a r1 =>
      if is_space (String a "") then lstrip r1
      else
        match r1 with
        | EmptyString => s
        | String b r2 =>
            if is_space (String a (String b "")) then lstrip r2
            else
              match r2 with
              | EmptyString => s
              | String c r3 =>
                  if is_space (String a (String b (String c "")))
                  then lstrip r3 else s
              end
        end
  end.

(** [s.rstrip()]: what comes before the longest tail of whitespace. *)
Fixpoint rstrip (s : string) : string :=
  match s with
  | EmptyString => EmptyString
  | String a rest =>
      if String.eqb (lstrip s) "" then EmptyString
      else String a (rstrip rest)
  end.

(** [s.strip()] *)
Definition strip (s : string) : string := rstrip (lstrip s).

(** [str.lower] byte by byte: A..Z move up by 32 and every other byte
    stays, which is [str.lower] on ASCII text.  The provider lowers only
    [str(b)] for a [bool] [b]. *)
Definition lower_char (c : ascii) : ascii :=
  let n := Z.of_N (N_of_ascii c) in
  if (65 <=? n) && (n <=? 90) then ascii_of_N (Z.to_N (n + 32)) else c.

Fixpoint lower (s : string) : string :=
  match s with
  | String c s' => String (lower_char c) (lower s')
  | EmptyString => EmptyString
  end.

(** A run of whitespace characters. *)
Inductive spaces : string → Prop :=
| spaces_nil : spaces ""
| spaces_cons w s : In w space_encodings → spaces s → spaces (w +:+ s).

(** A string starts, or ends, with a whitespace character. *)
Definition starts_with_space (t : string) : Prop :=
  ∃ w r, In w space_encodings ∧ t = w +:+ r.

Definition ends_with_space (t : string) : Prop :=
  ∃ x w, In w space_encodings ∧ t = x +:+ w.

(** [str(b)] for a [bool], [str(n)] for an [int]. *)
Definition str_of_bool (b : bool) : string := if b then "True" else "False".
Definition str_of_int (n : Z) : string := pretty n.

(** Truth value of an [Optional[str]] and of an [Optional[int]]. *)
Definition truthy_str (o : option string) : bool :=
  match o with
  | Some s => negb (String.eqb s "")
  | None => false
  end.

Definition truthy_int (o : option Z) : bool :=
  match o with
  | Some n => negb (n =? 0)
  | None => false
  end.

(** A [dict] with string keys, in insertion order. *)
Definition dict (V : Type) : Type := list (string * V).

Fixpoint dict_get {V} (d : dict V) (k : string) : option V :=
  match d with
  | (k', v) :: d' => if String.eqb k' k then Some v else dict_get d' k
  | [] => None
  end.

(** [d[k] = v]: an existing key keeps its position, a new key goes last. *)
Fixpoint dict_set {V} (d : dict V) (k : string) (v : V) : dict V :=
  match d with
  | (k', v') :: d' =>
      if String.eqb k' k then (k', v) :: d' else (k', v') :: dict_set d' k v
  | [] => [(k, v)]
  end.

Definition dict_keys {V} (d : dict V) : list string := map fst d.

(** What [json] hands back: [None], [bool], [int], [float] (kept as its
    literal), [str], [list], [dict]. *)
Inductive json : Type :=
| JNone
| JBool (b : bool)
| JInt (n : Z)
| JFloat (literal : string)
| JStr (s : string)
| JList (l : list json)
| JDict (d : list (string * json)).

Definition type_name (v : json) : string :=
  match v with
  | JNone => "NoneType"
  | JBool _ => "bool"
  | JInt _ => "int"
  | JFloat _ => "float"
  | JStr _ => "str"
  | JList _ => "list"
  | JDict _ => "dict"
  end.

(** ** Exceptions *)

(** The classes that occur: [opuslib_next.OpusError], [OSError] (with
    [FileNotFoundError] and [PermissionError]), [requests.RequestException],
    [ValueError] (with the JSON decode error) and [AttributeError].  All of
    them derive from [Exception], so [except Exception] catches each. *)
Inductive exn_class : Type :=
| OpusError
| OSError
| RequestException
| ValueError
| AttributeError.

Global Instance exn_class_eq_dec : EqDecision exn_class.
Proof. solve_decision. Defined.

(** An exception object: its class and [str(e)]. *)
Record exn : Type := Exn { exn_cls : exn_class; exn_str : string }.

Definition no_attribute (v : json) (attr : string) : exn :=
  Exn AttributeError
      ("'" +:+ type_name v +:+ "' object has no attribute '" +:+ attr +:+ "'").

(** ** The outside world *)

(** An open file object: the path it was opened at and what it reads. *)
Record file_obj : Type := FileObj { f_name : string; f_content : bytes }.

(** The arguments of [requests.post(url, headers=, data=, files=)]. *)
Record Request : Type := MkRequest {
  req_url : string;
  req_headers : dict string;
  req_data : dict string;
  req_files : dict file_obj
}.

(** A [requests.Response]: [status_code], [text] and the outcome of
    [json()]. *)
Record Response : Type := MkResponse {
  status_code : Z;
  text : string;
  json_body : exn + json
}.

Inductive log_level : Type := ERROR | WARNING.

Record World : Type := MkWorld {
  fs : gmap string bytes;          (* regular files on storage, by path *)
  sent : list Request;             (* requests handed to the transport *)
  logs : list (log_level * string);(* logger output, oldest first *)
  entropy : nat                    (* state of the uuid source *)
}.

Definition set_fs (f : gmap string bytes → gmap string bytes) (w : World) : World :=
  MkWorld (f (fs w)) (sent w) (logs w) (entropy w).

(** What libraries, operating system and network answer. *)
Record Env : Type := MkEnv {
  (* opuslib_next: decoder state, [Decoder(fs, channels)] and
     [decoder.decode(packet, frame_size)], which returns PCM bytes or raises
     and moves the decoder to its next state *)
  dstate : Type;
  new_decoder : Z → Z → dstate;
  decode : dstate → bytes → Z → (exn + bytes) * dstate;
  (* [str(uuid.uuid4())] *)
  uuid_of : nat → string;
  (* [wave]: whether writing [data] at [path] fails (a missing directory, a
     full disk, data beyond the 32-bit length field), and what is then left
     at the path *)
  wave_fault : string → bytes → option (exn * option bytes);
  (* what other processes do to storage between the end of the write and the
     existence check *)
  others : gmap string bytes → gmap string bytes;
  (* [open(path, 'rb')] and [os.remove(path)] failing on an existing file *)
  open_fault : string → option exn;
  remove_fault : string → option exn;
  (* the remote service and the transport *)
  http : Request → exn + Response
}.

(** ** The monad: state and exceptions *)

Definition M (A : Type) : Type := World → (exn + A) * World.

Global Instance M_ret : MRet M := λ A a w, (inr a, w).

Global Instance M_bind : MBind M := λ A B f m w,
  match m w with
  | (inr a, w') => f a w'
  | (inl e, w') => (inl e, w')
  end.

Definition raise {A} (e : exn) : M A := λ w, (inl e, w).

(** [try: body  except Exception as e: handler e] *)
Definition try_except {A} (body : M A) (handler : exn → M A) : M A := λ w,
  match body w with
  | (inr a, w') => (inr a, w')
  | (inl e, w') => handler e w'
  end.

(** [try: body  finally: cleanup]: the cleanup runs on every exit of the
    body; when it raises, its exception replaces the outcome of the body. *)
Definition try_finally {A} (body : M A) (cleanup : M unit) : M A := λ w,
  let '(r, w') := body w in
  match cleanup w' with
  | (inr _, w'') => (r, w'')
  | (inl e, w'') => (inl e, w'')
  end.

Definition modify (f : World → World) : M unit := λ w, (inr (), f w).

(** [logger.bind(tag=TAG).error(msg)] and [.warning(msg)] *)
Definition logger (lvl : log_level) (msg : string) : M unit :=
  modify (λ w, MkWorld (fs w) (sent w) (logs w ++ [(lvl, msg)]) (entropy w)).

(** ** The container written by [wave] *)

Definition byte_of_Z (v : Z) : byte :=
  default x00 (Byte.of_N (Z.to_N (v mod 256))).

(** [struct.pack] of an unsigned little-endian field of [n] bytes. *)
Fixpoint le_bytes (n : nat) (v : Z) : bytes :=
  match n with
  | O => []
  | S n' => byte_of_Z v :: le_bytes n' (v / 256)
  end.

(** The RIFF/WAVE header of [wave.Wave_write] for linear PCM (format tag 1),
    once the data length is known. *)
Definition wav_header (nchannels sampwidth framerate datalen : Z) : bytes :=
  list_byte_of_string "RIFF" ++ le_bytes 4 (36 + datalen)
  ++ list_byte_of_string "WAVE" ++ list_byte_of_string "fmt "
  ++ le_bytes 4 16 ++ le_bytes 2 1 ++ le_bytes 2 nchannels
  ++ le_bytes 4 framerate ++ le_bytes 4 (nchannels * framerate * sampwidth)
  ++ le_bytes 2 (nchannels * sampwidth) ++ le_bytes 2 (sampwidth * 8)
  ++ list_byte_of_string "data" ++ le_bytes 4 datalen.

Definition wav_file (nchannels sampwidth framerate : Z) (frames : bytes) : bytes :=
  wav_header nchannels sampwidth framerate (Z.of_nat (length frames)) ++ frames.

Definition header_size : nat := 44.

(** [posixpath.join(a, b)] *)
Definition ends_with_sep (a : string) : bool :=
  match rev (list_ascii_of_string a) with
  | c :: _ => Ascii.eqb c "/"
  | [] => false
  end.

Definition os_path_join (a b : string) : string :=
  if String.prefix "/" b then b
  else if String.eqb a "" || ends_with_sep a then a +:+ b
  else a +:+ "/" +:+ b.

(** ** The provider *)

(** The attributes [__init__] sets; [output_dir] is the [Path] as a string. *)
Record ASRProvider : Type := MkProvider {
  api_key : string;
  model_id : string;
  base_url : string;
  output_dir : string
}.

(** [(transcribed_text, error_message)] *)
Definition outcome : Type := option string * option string.

Section Provider.

Variable env : Env.
Variable self : ASRProvider.

(** *** Library and system calls *)

Definition uuid4 : M string := λ w,
  (inr (uuid_of env (entropy w)),
   MkWorld (fs w) (sent w) (logs w) (S (entropy w))).

(** [with wave.open(path, "wb") as wf:] set the three parameters and
    [wf.writeframes(frames)]. *)
Definition wave_write (path : string) (nchannels sampwidth framerate : Z)
    (frames : bytes) : M unit :=
  match wave_fault env path frames with
  | Some (e, Some partial) => modify (set_fs <[path := partial]>) ;; raise e
  | Some (e, None) => raise e
  | None =>
      modify (set_fs <[path := wav_file nchannels sampwidth framerate frames]>)
  end.

Definition others_act : M unit := modify (set_fs (others env)).

Definition os_path_exists (path : string) : M bool := λ w,
  (inr (bool_decide (is_Some (fs w !! path))), w).

Definition no_such_file (path : string) : exn :=
  Exn OSError ("[Errno 2] No such file or directory: '" +:+ path +:+ "'").

Definition open_rb (path : string) : M file_obj := λ w,
  match open_fault env path with
  | Some e => (inl e, w)
  | None =>
      match fs w !! path with
      | Some content => (inr (FileObj path content), w)
      | None => (inl (no_such_file path), w)
      end
  end.

Definition os_remove (path : string) : M unit := λ w,
  match remove_fault env path with
  | Some e => (inl e, w)
  | None =>
      match fs w !! path with
      | Some _ => (inr (), set_fs (delete path) w)
      | None => (inl (no_such_file path), w)
      end
  end.

Definition requests_post (url : string) (headers data : dict string)
    (files : dict file_obj) : M Response := λ w,
  let req := MkRequest url headers data files in
  let w' := MkWorld (fs w) (sent w ++ [req]) (logs w) (entropy w) in
  match http env req with
  | inr response => (inr response, w')
  | inl e => (inl e, w')
  end.

(** [response.json()] *)
Definition response_json (response : Response) : M json :=
  match json_body response with
  | inr v => mret v
  | inl e => raise e
  end.

(** [result.get(key, dflt)] *)
Definition json_get (result : json) (key : string) (dflt : json) : M json :=
  match result with
  | JDict d => mret (default dflt (dict_get d key))
  | _ => raise (no_attribute result "get")
  end.

(** [v.strip()] *)
Definition json_strip (v : json) : M string :=
  match v with
  | JStr s => mret (strip s)
  | _ => raise (no_attribute v "strip")
  end.

(** *** [save_audio_to_file] *)

(** The [for opus_packet in opus_data] loop; [decoder] and [pcm_data] are the
    loop's two mutable locals. *)
Fixpoint decode_loop (decoder : dstate env) (opus_data : list bytes)
    (pcm_data : list bytes) : M (list bytes) :=
  match opus_data with
  | [] => mret pcm_data
  | opus_packet :: rest =>
      let '(r, decoder') := decode env decoder opus_packet 960 in
      match r with
      | inr pcm_frame => decode_loop decoder' rest (pcm_data ++ [pcm_frame])
      | inl e =>
          if decide (exn_cls e = OpusError) then
            logger ERROR ("Opus decoding error: " +:+ exn_str e) ;;
            decode_loop decoder' rest pcm_data
          else raise e
      end
  end.

Definition save_audio_to_file (opus_data : list bytes) (session_id : string)
    : M string :=
  u ← uuid4 ;
  let file_name := "elevenlabs_asr_" +:+ session_id +:+ "_" +:+ u +:+ ".wav" in
  let file_path := os_path_join (output_dir self) file_name in
  let decoder := new_decoder env 16000 1 in
  pcm_data ← decode_loop decoder opus_data [] ;
  wave_write file_path 1 2 16000 (concat pcm_data) ;;
  mret file_path.

(** *** [speech_to_text] *)

(** The method is declared [async] and awaits nothing: its body runs from
    start to end when the coroutine is awaited.  Storage is shared with other
    processes; [others_act] is where they act, between the return of
    [save_audio_to_file] and [os.path.exists]. *)

Definition speech_to_text (opus_data : list bytes) (session_id : string)
    (language_code : option string) (tag_audio_events : bool)
    (num_speakers : option Z) (timestamps_granularity : string)
    (diarize enable_logging : bool) : M outcome :=
  audio_file_path ← save_audio_to_file opus_data session_id ;
  others_act ;;
  present ← os_path_exists audio_file_path ;
  if negb present then
    logger ERROR ("Audio file not created: " +:+ audio_file_path) ;;
    mret (None, None)
  else
    let headers := [("xi-api-key", api_key self)] in
    let data :=
      [("model_id", model_id self);
       ("enable_logging", lower (str_of_bool enable_logging));
       ("tag_audio_events", lower (str_of_bool tag_audio_events));
       ("timestamps_granularity", timestamps_granularity);
       ("diarize", lower (str_of_bool diarize));
       ("file_format", "pcm_s16le_16")] in
    let data :=
      match language_code with
      | Some lc =>
          if truthy_str language_code then dict_set data "language_code" lc
          else data
      | None => data
      end in
    let data :=
      match num_speakers with
      | Some n =>
          if truthy_int num_speakers
          then dict_set data "num_speakers" (str_of_int n)
          else data
      | None => data
      end in
    try_finally
      (try_except
         (audio_file ← open_rb audio_file_path ;
          response ← requests_post (base_url self) headers data
                       [("file", audio_file)] ;
          if status_code response =? 200 then
            result ← response_json response ;
            v ← json_get result "text" (JStr "") ;
            txt ← json_strip v ;
            mret (Some txt, None)
          else
            let error := text response in
            logger ERROR ("ElevenLabs API error: " +:+ error) ;;
            mret (None, Some error))
         (λ e,
            logger ERROR ("Error in ElevenLabs ASR: " +:+ exn_str e) ;;
            mret (None, Some (exn_str e))))
      (try_except
         (os_remove audio_file_path)
         (λ e,
            logger WARNING ("Could not remove temp file " +:+ audio_file_path
                            +:+ ": " +:+ exn_str e))).

End Provider.

(** ** Vocabulary of the statements *)

Section Vocabulary.

Variable env : Env.
Variable self : ASRProvider.

(** The outcomes of [decoder.decode(packet, 960)] over a packet list, in
    order, the decoder state carried from one packet to the next. *)
Fixpoint decode_results (decoder : dstate env) (opus_data : list bytes)
    : list (exn + bytes) :=
  match opus_data with
  | [] => []
  | opus_packet :: rest =>
      let '(r, decoder') := decode env decoder opus_packet 960 in
      r :: decode_results decoder' rest
  end.

(** The frames of the packets that decoded, in packet order. *)
Definition decoded (rs : list (exn + bytes)) : list bytes :=
  omap (λ r, match r with inr frame => Some frame | inl _ => None end) rs.

(** The number of packets that decoded. *)
Definition succeeded (r : exn + bytes) : bool :=
  match r with inr _ => true | inl _ => false end.

Definition successes (rs : list (exn + bytes)) : nat :=
  length (List.filter succeeded rs).

(** A packet list is [opus_clean] when each failed decode is an
    [OpusError], and [fixed_frame] when each decoded frame has 960 samples of
    2 bytes. *)
Definition opus_clean (rs : list (exn + bytes)) : Prop :=
  Forall (λ r, ∀ e, r = inl e → exn_cls e = OpusError) rs.

Definition fixed_frame (rs : list (exn + bytes)) : Prop :=
  Forall (λ r, ∀ frame, r = inr frame → length frame = 1920%nat) rs.

(** The path [save_audio_to_file] builds in world [w]. *)
Definition artifact_path (session_id : string) (w : World) : string :=
  os_path_join (output_dir self)
    ("elevenlabs_asr_" +:+ session_id +:+ "_" +:+ uuid_of env (entropy w)
     +:+ ".wav").

(** Other processes never take a file away. *)
Definition keeps_files : Prop :=
  ∀ (m : gmap string bytes) (path : string),
    is_Some (m !! path) → is_Some (others env m !! path).

(** The blocks of [speech_to_text], named: the form fields (lines 99-111),
    the reading of the response (123-130), the guarded request (113-133) and
    the cleanup (136-139).  [speech_to_text_blocks] below shows that
    [speech_to_text] is their composition. *)
Definition form_data (language_code : option string) (tag_audio_events : bool)
    (num_speakers : option Z) (timestamps_granularity : string)
    (diarize enable_logging : bool) : dict string :=
  let data :=
    [("model_id", model_id self);
     ("enable_logging", lower (str_of_bool enable_logging));
     ("tag_audio_events", lower (str_of_bool tag_audio_events));
     ("timestamps_granularity", timestamps_granularity);
     ("diarize", lower (str_of_bool diarize));
     ("file_format", "pcm_s16le_16")] in
  let data :=
    match language_code with
    | Some lc =>
        if truthy_str language_code then dict_set data "language_code" lc
        else data
    | None => data
    end in
  match num_speakers with
  | Some n =>
      if truthy_int num_speakers
      then dict_set data "num_speakers" (str_of_int n)
      else data
  | None => data
  end.

Definition read_response (response : Response) : M outcome :=
  if status_code response =? 200 then
    result ← response_json response ;
    v ← json_get result "text" (JStr "") ;
    txt ← json_strip v ;
    mret (Some txt, None)
  else
    logger ERROR ("ElevenLabs API error: " +:+ text response) ;;
    mret (None, Some (text response)).

Definition the_request (path : string) (content : bytes) (data : dict string)
    : Request :=
  MkRequest (base_url self) [("xi-api-key", api_key self)] data
    [("file", FileObj path content)].

Definition attempt (path : string) (data : dict string) : M outcome :=
  try_except
    (audio_file ← open_rb env path ;
     response ← requests_post env (base_url self)
                  [("xi-api-key", api_key self)] data [("file", audio_file)] ;
     read_response response)
    (λ e,
       logger ERROR ("Error in ElevenLabs ASR: " +:+ exn_str e) ;;
       mret (None, Some (exn_str e))).

Definition cleanup (path : string) : M unit :=
  try_except
    (os_remove env path)
    (λ e,
       logger WARNING ("Could not remove temp file " +:+ path +:+ ": "
                       +:+ exn_str e)).

End Vocabulary.

(** ** Scenarios *)

Module Scenario.

(** A decoder for the scenarios: an empty packet is corrupt, any other packet
    decodes to a frame of silence; the state counts the packets seen. *)
Definition toy_decode (seen : nat) (packet : bytes) (frame_size : Z)
    : (exn + bytes) * nat :=
  match packet with
  | [] => (inl (Exn OpusError "corrupted stream"), S seen)
  | _ => (inr (repeat x00 (Z.to_nat (2 * frame_size))), S seen)
  end.

Definition uuids (n : nat) : string := "uuid" +:+ pretty n.

(** Nothing fails, nobody interferes, the service answers [reply]. *)
Definition quiet (reply : exn + Response) : Env :=
  MkEnv nat (λ _ _, O) toy_decode uuids
        (λ _ _, None) (λ m, m) (λ _, None) (λ _, None) (λ _, reply).

Definition permission_denied : exn := Exn OSError "[Errno 13] Permission denied".
Definition no_space : exn := Exn OSError "[Errno 28] No space left on device".
Definition timed_out : exn := Exn RequestException "Connection timed out".

(** As [quiet], but [os.remove] is refused. *)
Definition remove_refused (reply : exn + Response) : Env :=
  MkEnv nat (λ _ _, O) toy_decode uuids
        (λ _ _, None) (λ m, m) (λ _, None) (λ _, Some permission_denied)
        (λ _, reply).

(** As [quiet], but [wave] cannot write. *)
Definition disk_full (reply : exn + Response) : Env :=
  MkEnv nat (λ _ _, O) toy_decode uuids
        (λ _ _, Some (no_space, None)) (λ m, m) (λ _, None) (λ _, None)
        (λ _, reply).

(** As [quiet], but another process empties the directory after the write. *)
Definition swept (reply : exn + Response) : Env :=
  MkEnv nat (λ _ _, O) toy_decode uuids
        (λ _ _, None) (λ _, ∅) (λ _, None) (λ _, None) (λ _, reply).

Definition provider : ASRProvider :=
  MkProvider "sk-key" "scribe_v1"
             "https://api.elevenlabs.io/v1/speech-to-text" "temp/audio".

Definition w0 : World := MkWorld ∅ [] [] 0.

Definition the_path : string := "temp/audio/elevenlabs_asr_s1_uuid0.wav".

(** Two valid packets around a corrupt one. *)
Definition packets : list bytes := [[x01]; []; [x02]].

Definition dq : string := String (ascii_of_nat 34) EmptyString.

(** HTTP 200 with body [{"text": " hello world "}]. *)
Definition hello : Response :=
  MkResponse 200
    ("{" +:+ dq +:+ "text" +:+ dq +:+ ": " +:+ dq +:+ " hello world " +:+ dq
     +:+ "}")
    (inr (JDict [("text", JStr " hello world ")])).

(** HTTP 500 with body [rate limited]. *)
Definition rate_limited : Response :=
  MkResponse 500 "rate limited"
    (inl (Exn ValueError "Expecting value: line 1 column 1 (char 0)")).

(** [speech_to_text(packets, "s1")], every option at its default. *)
Definition run (env : Env) : (exn + outcome) * World :=
  speech_to_text env provider packets "s1" None true None "word" false true w0.

End Scenario.

(** ** Vocabulary of the further statements *)

(** Reading a container back: the unsigned little-endian value of a byte
    string, and the field of [len] bytes at [offset] in a file. *)
Fixpoint le_value (bs : bytes) : Z :=
  match bs with
  | [] => 0
  | b :: bs' => Z.of_N (Byte.to_N b) + 256 * le_value bs'
  end.

Definition field (offset len : nat) (file : bytes) : Z :=
  le_value (take len (drop offset file)).

(** The exceptions of the packets that did not decode, in packet order, and
    the line the loop logs for one of them. *)
Definition failures (rs : list (exn + bytes)) : list exn :=
  omap (λ r, match r with inl e => Some e | inr _ => None end) rs.

Definition opus_error_line (e : exn) : log_level * string :=
  (ERROR, "Opus decoding error: " +:+ exn_str e).

(** The names of the form fields, in the order the dict holds them. *)
Definition form_keys (language_code : option string) (num_speakers : option Z)
    : list string :=
  ["model_id"; "enable_logging"; "tag_audio_events"; "timestamps_granularity";
   "diarize"; "file_format"]
  ++ (if truthy_str language_code then ["language_code"] else [])
  ++ (if truthy_int num_speakers then ["num_speakers"] else []).

(** A boolean as the form carries it. *)
Definition form_bool (b : bool) : string := if b then "true" else "false".

(** The uuid source never gives the same string twice. *)
Definition never_repeats (env : Env) : Prop :=
  ∀ m n : nat, uuid_of env m = uuid_of env n → m = n.

(** Further scenarios. *)
Module Cases.

(** HTTP 200 with a body that is not JSON. *)
Definition garbled : Response :=
  MkResponse 200 "<html>Bad Gateway</html>"
    (inl (Exn ValueError "Expecting value: line 1 column 1 (char 0)")).

(** HTTP 200 with body [{"text": null}] and with body [[]]. *)
Definition null_text : Response :=
  MkResponse 200
    ("{" +:+ Scenario.dq +:+ "text" +:+ Scenario.dq +:+ ": null}")
    (inr (JDict [("text", JNone)])).

Definition empty_list : Response := MkResponse 200 "[]" (inr (JList [])).

(** As [Scenario.quiet], but the artifact cannot be opened. *)
Definition unreadable (reply : exn + Response) : Env :=
  MkEnv nat (λ _ _, O) Scenario.toy_decode Scenario.uuids
        (λ _ _, None) (λ m, m) (λ _, Some Scenario.permission_denied)
        (λ _, None) (λ _, reply).

(** As [Scenario.quiet], but [wave] fails after it has created the file. *)
Definition torn (reply : exn + Response) : Env :=
  MkEnv nat (λ _ _, O) Scenario.toy_decode Scenario.uuids
        (λ _ _, Some (Scenario.no_space, Some (list_byte_of_string "RIFF")))
        (λ m, m) (λ _, None) (λ _, None) (λ _, reply).

End Cases.

(** ** [ASRProvider.__init__] *)

(** [pathlib], the file system and floats at construction: [str(Path(v))],
    which raises when [v] is no path; whether [mkdir] fails on a path; and
    whether the float of a literal is other than zero. *)
Record InitEnv : Type := MkInitEnv {
  path_of : json → exn + string;
  mkdir_fault : string → option exn;
  float_nonzero : string → bool
}.

(** The truth value of a Python value: [None], [False], zero and the empty
    string, list and dict are false. *)
Definition truthy (ienv : InitEnv) (v : json) : bool :=
  match v with
  | JNone => false
  | JBool b => b
  | JInt n => negb (n =? 0)
  | JFloat literal => float_nonzero ienv literal
  | JStr s => negb (String.eqb s "")
  | JList l => match l with [] => false | _ :: _ => true end
  | JDict d => match d with [] => false | _ :: _ => true end
  end.

(** [config.get(key)] and [config.get(key, dflt)] *)
Definition config_get (config : dict json) (key : string) : json :=
  default JNone (dict_get config key).

Definition config_get_default (config : dict json) (key : string)
    (dflt : json) : json :=
  default dflt (dict_get config key).

(** The attributes as [__init__] sets them: the first three are whatever
    the configuration holds. *)
Record ASRAttributes : Type := MkAttributes {
  attr_api_key : json;
  attr_model_id : json;
  attr_base_url : json;
  attr_output_dir : string
}.

Definition no_api_key : exn :=
  Exn ValueError "ElevenLabs API key not found in configuration".

(** [__init__(self, config, delete_audio_file)].  The state is the list of
    the paths [mkdir(parents=True, exist_ok=True)] was called on. *)
Definition ASRProvider_init (ienv : InitEnv) (config : dict json)
    (delete_audio_file : bool) (made : list string)
    : (exn + ASRAttributes) * list string :=
  let api_key := config_get config "api_key" in
  let model_id := config_get_default config "model_id" (JStr "scribe_v1") in
  let base_url :=
    config_get_default config "stt_base_url"
      (JStr "https://api.elevenlabs.io/v1/speech-to-text") in
  if negb (truthy ienv api_key) then (inl no_api_key, made)
  else
    match path_of ienv
            (config_get_default config "temp_directory" (JStr "temp/audio"))
    with
    | inl e => (inl e, made)
    | inr output_dir =>
        match mkdir_fault ienv output_dir with
        | Some e => (inl e, (made ++ [output_dir])%list)
        | None =>
            (inr (MkAttributes api_key model_id base_url output_dir),
             (made ++ [output_dir])%list)
        end
    end.

(** The provider of the embedding above, when the three attributes are
    strings. *)
Definition as_provider (a : ASRAttributes) : option ASRProvider :=
  match attr_api_key a, attr_model_id a, attr_base_url a with
  | JStr k, JStr m, JStr u => Some (MkProvider k m u (attr_output_dir a))
  | _, _, _ => None
  end.

Module Construction.

(** A [pathlib] for the scenarios: a string is its own path, anything else is
    refused; [mkdir] works; no float is zero. *)
Definition plain : InitEnv :=
  MkInitEnv
    (λ v, match v with
          | JStr s => inr s
          | _ => inl (Exn ValueError "expected str, bytes or os.PathLike object")
          end)
    (λ _, None) (λ _, true).

Definition only_key : dict json := [("api_key", JStr "sk-key")].

Definition blank_key : dict json :=
  [("api_key", JStr ""); ("temp_directory", JInt 7)].

End Construction.

(** ** The intent cache: [IntentProvider.clean_cache] *)

(** Source: [core/providers/intent/intent_llm/intent_llm.py], method
    [clean_cache].  Timestamps are the floats of [time.time()]; the method
    only subtracts and compares them, so they are a type [time] with the
    two tests the method makes. *)

Section IntentCache.

Variable time : Type.
(** [now - timestamp > cache_expiry] *)
Variable expired : time → time → Z → bool.
(** [a < b], the order [sorted] sorts the timestamps by *)
Variable older : time → time → bool.

(** A value of [intent_cache]: [{"intent": ..., "timestamp": ...}]. *)
Record cache_entry : Type := MkEntry { intent : string; timestamp : time }.

(** The three attributes the method reads. *)
Record IntentProvider : Type := MkIntentProvider {
  intent_cache : dict cache_entry;
  cache_expiry : Z;
  cache_max_size : Z
}.

(** [del d[key]], for a key of the dict. *)
Definition dict_del {V} (d : dict V) (key : string) : dict V :=
  List.filter (λ kv, negb (String.eqb (fst kv) key)) d.

(** [for key in keys: del d[key]] *)
Definition dict_del_all {V} (d : dict V) (keys : list string) : dict V :=
  fold_left dict_del keys d.

(** [sorted(items, key=lambda x: x[1]["timestamp"])]: stable, ascending. *)
Fixpoint insert_by_timestamp (x : string * cache_entry)
    (l : list (string * cache_entry)) : list (string * cache_entry) :=
  match l with
  | [] => [x]
  | y :: l' =>
      if older (timestamp (snd y)) (timestamp (snd x))
      then y :: insert_by_timestamp x l'
      else x :: y :: l'
  end.

Fixpoint sorted_by_timestamp (l : list (string * cache_entry))
    : list (string * cache_entry) :=
  match l with
  | [] => []
  | x :: l' => insert_by_timestamp x (sorted_by_timestamp l')
  end.

(** [clean_cache(self)], with the reading of the clock as an argument. *)
Definition clean_cache (now : time) (self : IntentProvider) : IntentProvider :=
  let expired_keys :=
    map fst
      (List.filter
         (λ kv, expired now (timestamp (snd kv)) (cache_expiry self))
         (intent_cache self)) in
  let cache := dict_del_all (intent_cache self) expired_keys in
  let cache :=
    if Z.of_nat (length cache) >? cache_max_size self then
      let sorted_items := sorted_by_timestamp cache in
      dict_del_all cache
        (map fst
           (take (Z.to_nat (Z.of_nat (length sorted_items)
                            - cache_max_size self))
                 sorted_items))
    else cache in
  MkIntentProvider cache (cache_expiry self) (cache_max_size self).

(** [<] on the timestamps is a strict weak order, as it is on floats that
    are numbers; and [x] is not after [y]. *)
Definition strict_weak_order : Prop :=
  (∀ a b, older a b = true → older b a = false)
  ∧ (∀ a b c, older b a = false → older c b = false → older c a = false).

Definition not_after (x y : string * cache_entry) : Prop :=
  older (timestamp (snd y)) (timestamp (snd x)) = false.

End IntentCache.

Arguments MkEntry {time}.
Arguments intent {time}.
Arguments timestamp {time}.
Arguments MkIntentProvider {time}.
Arguments intent_cache {time}.
Arguments cache_expiry {time}.
Arguments cache_max_size {time}.
Arguments insert_by_timestamp {time}.
Arguments sorted_by_timestamp {time}.
Arguments clean_cache {time}.
Arguments strict_weak_order {time}.
Arguments not_after {time}.

Global Instance cache_entry_eq_dec {time} `{EqDecision time} :
  EqDecision (cache_entry time).
Proof. solve_decision. Defined.

Module Seconds.

(** Timestamps in whole seconds. *)
Definition expired (now timestamp expiry : Z) : bool :=
  now - timestamp >? expiry.

Definition older (a b : Z) : bool := a <? b.

(** One expired entry and three fresh ones, in a cache that holds two. *)
Definition crowded : IntentProvider Z :=
  MkIntentProvider
    [("a", MkEntry "play_music" 100); ("b", MkEntry "get_time" 900);
     ("c", MkEntry "continue_chat" 990); ("d", MkEntry "get_time" 950)]
    600 2.

(** Two fresh entries in a cache that holds a hundred. *)
Definition roomy : IntentProvider Z :=
  MkIntentProvider
    [("a", MkEntry "play_music" 100); ("b", MkEntry "get_time" 900);
     ("c", MkEntry "continue_chat" 990)]
    600 100.

End Seconds.

(** * Proofs *)

(** ** Stripping *)

Lemma append_nil_r (s : string) : s +:+ "" = s.
Proof.
  induction s as [|c s IH]; [done|].
  change (String c (s +:+ "") = String c s). by rewrite IH.
Qed.

Lemma append_assoc (x y z : string) : (x +:+ y) +:+ z = x +:+ y +:+ z.
Proof.
  induction x as [|c x IH]; [done|].
  change (String c ((x +:+ y) +:+ z) = String c (x +:+ y +:+ z)).
  by rewrite IH.
Qed.

Lemma is_space_In (w : string) : is_space w = true ↔ In w space_encodings.
Proof.
  unfold is_space. rewrite existsb_exists. split.
  - by intros (w' & Hin & ->%String.eqb_eq).
  - intros Hin. exists w. split; [done | apply String.eqb_refl].
Qed.

(** A whitespace character takes one, two or three bytes. *)
Lemma space_encoding_shape (w : string) :
  In w space_encodings →
  ∃ a, w = String a ""
       ∨ ∃ b, w = String a (String b "")
              ∨ ∃ c, w = String a (String b (String c "")).
Proof.
  remember space_encodings as l eqn:Hl. vm_compute in Hl. subst l.
  intros Hin. repeat (destruct Hin as [<-|Hin]; [eauto 7|]). destruct Hin.
Qed.

(** [lstrip] removes a whitespace character at the front. *)
Lemma lstrip_space (w r : string) :
  In w space_encodings → lstrip (w +:+ r) = lstrip r.
Proof.
  remember space_encodings as l eqn:Hl. vm_compute in Hl. subst l.
  intros Hin. repeat (destruct Hin as [<-|Hin]; [reflexivity|]). destruct Hin.
Qed.

Lemma spaces_lstrip (s : string) : spaces s → lstrip s = "".
Proof. induction 1 as [|w s Hw _ IH]; [done|]. by rewrite lstrip_space. Qed.

(** A string none of whose first one, two and three bytes is a whitespace
    character does not start with one. *)
Lemma not_starts_with_space (s : string) :
  match s with
  | String a r1 =>
      is_space (String a "") = false
      ∧ match r1 with
        | String b r2 =>
            is_space (String a (String b "")) = false
            ∧ match r2 with
              | String c _ =>
                  is_space (String a (String b (String c ""))) = false
              | EmptyString => True
              end
        | EmptyString => True
        end
  | EmptyString => True
  end →
  ¬ starts_with_space s.
Proof.
  intros Hs (w & r & Hw & ->).
  pose proof Hw as Hshape. apply space_encoding_shape in Hshape.
  apply is_space_In in Hw.
  destruct Hshape as (a & [->|(b & [->|(c & ->)])]); simpl in Hs.
  - destruct Hs as [Hs _]. congruence.
  - destruct Hs as (_ & Hs & _). congruence.
  - destruct Hs as (_ & _ & Hs). congruence.
Qed.

Lemma lstrip_spec_bounded (n : nat) (s : string) :
  (String.length s ≤ n)%nat →
  ∃ pre, s = pre +:+ lstrip s ∧ spaces pre ∧ ¬ starts_with_space (lstrip s).
Proof.
  revert s. induction n as [|n IH]; intros s Hn.
  { destruct s; [|simpl in Hn; lia]. exists "". split_and!; [done|constructor|].
    by apply not_starts_with_space. }
  destruct s as [|a r1].
  { exists "". split_and!; [done|constructor|]. by apply not_starts_with_space. }
  simpl in Hn. cbn [lstrip].
  destruct (is_space (String a "")) eqn:H1.
  { destruct (IH r1) as (pre & Hr & Hpre & Hno); [lia|].
    exists (String a "" +:+ pre). split_and!; [|constructor|done].
    - by rewrite append_assoc, <- Hr.
    - by apply is_space_In.
    - done. }
  destruct r1 as [|b r2].
  { exists "". split_and!; [done|constructor|]. by apply not_starts_with_space. }
  simpl in Hn.
  destruct (is_space (String a (String b ""))) eqn:H2.
  { destruct (IH r2) as (pre & Hr & Hpre & Hno); [lia|].
    exists (String a (String b "") +:+ pre). split_and!; [|constructor|done].
    - by rewrite append_assoc, <- Hr.
    - by apply is_space_In.
    - done. }
  destruct r2 as [|c r3].
  { exists "". split_and!; [done|constructor|]. by apply not_starts_with_space. }
  simpl in Hn.
  destruct (is_space (String a (String b (String c "")))) eqn:H3.
  { destruct (IH r3) as (pre & Hr & Hpre & Hno); [lia|].
    exists (String a (String b (String c "")) +:+ pre).
    split_and!; [|constructor|done].
    - by rewrite append_assoc, <- Hr.
    - by apply is_space_In.
    - done. }
  exists "". split_and!; [done|constructor|]. by apply not_starts_with_space.
Qed.

Lemma lstrip_spec (s : string) :
  ∃ pre, s = pre +:+ lstrip s ∧ spaces pre ∧ ¬ starts_with_space (lstrip s).
Proof. by apply (lstrip_spec_bounded (String.length s)). Qed.

Lemma space_encoding_not_empty (x : string) :
  In x space_encodings → x ≠ "".
Proof.
  intros Hin ->. apply space_encoding_shape in Hin.
  destruct Hin as (a & [?|(b & [?|(c & ?)])]); discriminate.
Qed.

Lemma append_empty (x w : string) : x +:+ w = "" → w = "".
Proof. destruct x; [done | discriminate]. Qed.

Lemma rstrip_spec (s : string) :
  ∃ post, s = rstrip s +:+ post ∧ spaces post ∧ ¬ ends_with_space (rstrip s).
Proof.
  induction s as [|a rest IH].
  { exists "". split_and!; [done|constructor|].
    intros (x & w & Hw & Heq). symmetry in Heq. apply append_empty in Heq.
    by apply space_encoding_not_empty in Hw. }
  cbn [rstrip]. destruct (String.eqb_spec (lstrip (String a rest)) "") as [He|Hne].
  { exists (String a rest). split_and!; [done| |].
    - destruct (lstrip_spec (String a rest)) as (pre & Hs & Hpre & _).
      rewrite He, append_nil_r in Hs. by rewrite Hs.
    - intros (x & w & Hw & Heq). symmetry in Heq. apply append_empty in Heq.
      by apply space_encoding_not_empty in Hw. }
  destruct IH as (post & Hrest & Hpost & Hno).
  exists post. split_and!; [|done|].
  { change (String a rest = String a (rstrip rest +:+ post)).
    by rewrite <- Hrest. }
  intros (x & w & Hw & Heq). destruct x as [|a' x].
  - change (String a (rstrip rest) = w) in Heq.
    apply Hne. apply spaces_lstrip.
    replace (String a rest) with (w +:+ post).
    + by constructor.
    + rewrite <- Heq.
      change (String a (rstrip rest +:+ post) = String a rest).
      by rewrite <- Hrest.
  - change (String a (rstrip rest) = String a' (x +:+ w)) in Heq.
    injection Heq as _ Heq. apply Hno. by exists x, w.
Qed.

(** [strip] takes a run of whitespace characters off each end, and what it
    leaves neither starts nor ends with one. *)
Lemma strip_spec (s : string) :
  ∃ pre post,
    s = pre +:+ strip s +:+ post
    ∧ spaces pre ∧ spaces post
    ∧ ¬ starts_with_space (strip s) ∧ ¬ ends_with_space (strip s).
Proof.
  unfold strip.
  destruct (lstrip_spec s) as (pre & Hs & Hpre & Hstart).
  destruct (rstrip_spec (lstrip s)) as (post & Ht & Hpost & Hend).
  exists pre, post. split_and!; [by rewrite <- Ht|done|done| |done].
  intros (w & r & Hw & Heq). apply Hstart. exists w, (r +:+ post).
  split; [done|]. rewrite Ht at 1. by rewrite Heq, append_assoc.
Qed.

(** ** Containers *)

Lemma le_bytes_length n v : length (le_bytes n v) = n.
Proof. revert v. induction n as [|n IH]; intros v; simpl; [done | by rewrite IH]. Qed.

Lemma wav_header_length nchannels sampwidth framerate datalen :
  length (wav_header nchannels sampwidth framerate datalen) = header_size.
Proof.
  unfold wav_header. rewrite !length_app, !le_bytes_length. reflexivity.
Qed.

Lemma wav_file_length nchannels sampwidth framerate frames :
  length (wav_file nchannels sampwidth framerate frames)
  = (header_size + length frames)%nat.
Proof. unfold wav_file. by rewrite length_app, wav_header_length. Qed.

Lemma concat_fixed_length (frames : list bytes) (k : nat) :
  Forall (λ frame, length frame = k) frames →
  length (concat frames) = (length frames * k)%nat.
Proof.
  induction 1 as [|frame frames Hk _ IH]; simpl; [done|].
  rewrite length_app, IH, Hk. lia.
Qed.

Section Facts.
Context (env : Env) (self : ASRProvider).

Lemma decoded_fixed (rs : list (exn + bytes)) :
  fixed_frame rs → Forall (λ frame, length frame = 1920%nat) (decoded rs).
Proof.
  unfold fixed_frame, decoded.
  induction 1 as [|[e|frame] rs Hr _ IH]; simpl; [constructor | exact IH |].
  constructor; [by apply Hr | exact IH].
Qed.

(** *** The decode loop *)

Lemma decode_loop_run decoder opus_data pcm_data w r w' :
  decode_loop env decoder opus_data pcm_data w = (r, w') →
  fs w' = fs w ∧ sent w' = sent w ∧ entropy w' = entropy w
  ∧ ∀ frames, r = inr frames →
      opus_clean (decode_results env decoder opus_data)
      ∧ frames = (pcm_data ++ decoded (decode_results env decoder opus_data))%list.
Proof.
  revert decoder pcm_data w.
  induction opus_data as [|opus_packet rest IH]; intros decoder pcm_data w; simpl.
  - intros [= <- <-]. split_and!; [done..|].
    intros frames [= <-]. split; [constructor | by rewrite app_nil_r].
  - destruct (decode env decoder opus_packet 960) as [[e|frame] decoder'].
    + case_decide as Hcls.
      * unfold mbind, M_bind, logger, modify. intros Hrun.
        apply IH in Hrun as (Hfs & Hsent & Hent & Hframes). simpl in *.
        split_and!; [done..|].
        intros frames Hr. apply Hframes in Hr as [Hclean ->].
        split; [|done]. constructor; [by intros ? [= <-] | done].
      * intros [= <- <-]. split_and!; [done..|]. intros frames [=].
    + intros Hrun. apply IH in Hrun as (Hfs & Hsent & Hent & Hframes).
      split_and!; [done..|].
      intros frames Hr. apply Hframes in Hr as [Hclean ->].
      split; [by constructor | by rewrite <- app_assoc].
Qed.

Lemma decode_loop_clean decoder opus_data pcm_data w :
  opus_clean (decode_results env decoder opus_data) →
  ∃ w', decode_loop env decoder opus_data pcm_data w
        = (inr (pcm_data ++ decoded (decode_results env decoder opus_data))%list, w').
Proof.
  revert decoder pcm_data w.
  induction opus_data as [|opus_packet rest IH]; intros decoder pcm_data w; simpl.
  - intros _. exists w. by rewrite app_nil_r.
  - destruct (decode env decoder opus_packet 960) as [[e|frame] decoder'];
      intros Hclean; inversion_clear Hclean as [|? ? Hhead Htail].
    + rewrite decide_True by by apply Hhead.
      unfold mbind, M_bind, logger, modify.
      edestruct IH as [w' Hw']; [exact Htail|]. exists w'. exact Hw'.
    + edestruct IH as [w' Hw']; [exact Htail|]. exists w'.
      rewrite Hw'. simpl. by rewrite <- app_assoc.
Qed.

(** *** [save_audio_to_file] *)

Lemma save_run opus_data session_id w r w1 :
  save_audio_to_file env self opus_data session_id w = (r, w1) →
  sent w1 = sent w
  ∧ ∀ path, r = inr path →
      let rs := decode_results env (new_decoder env 16000 1) opus_data in
      path = artifact_path env self session_id w
      ∧ opus_clean rs
      ∧ fs w1 = <[path := wav_file 1 2 16000 (concat (decoded rs))]> (fs w).
Proof.
  unfold save_audio_to_file, mbind, M_bind, uuid4.
  destruct (decode_loop _ _ _ _ _) as [[e|pcm_data] w2] eqn:Hloop.
  - intros [= <- <-]. apply decode_loop_run in Hloop as (_ & Hsent & _).
    split; [done | intros path [=]].
  - apply decode_loop_run in Hloop as (Hfs & Hsent & _ & Hframes).
    destruct (Hframes pcm_data eq_refl) as [Hclean ->]. simpl in *.
    unfold wave_write, mret, M_ret.
    destruct (wave_fault env _ _) as [[e [partial|]]|]; simpl.
    + intros [= <- <-]. split; [done | intros path [=]].
    + intros [= <- <-]. split; [done | intros path [=]].
    + intros [= <- <-]. split; [done|]. intros path [= <-].
      split_and!; [done..|]. simpl. by rewrite Hfs.
Qed.

Lemma save_returns opus_data session_id w :
  let rs := decode_results env (new_decoder env 16000 1) opus_data in
  let path := artifact_path env self session_id w in
  opus_clean rs →
  wave_fault env path (concat (decoded rs)) = None →
  ∃ w1, save_audio_to_file env self opus_data session_id w = (inr path, w1).
Proof.
  intros rs path Hclean Hwave.
  unfold save_audio_to_file, mbind, M_bind, uuid4.
  edestruct (decode_loop_clean (new_decoder env 16000 1) opus_data []) as [w2 ->];
    [exact Hclean|].
  simpl. unfold wave_write. fold rs. fold (artifact_path env self session_id w).
  fold path. rewrite Hwave. simpl. eauto.
Qed.

(** *** The blocks of [speech_to_text] *)

Lemma speech_to_text_blocks opus_data session_id language_code tag_audio_events
    num_speakers timestamps_granularity diarize enable_logging :
  speech_to_text env self opus_data session_id language_code tag_audio_events
    num_speakers timestamps_granularity diarize enable_logging
  = (audio_file_path ← save_audio_to_file env self opus_data session_id ;
     others_act env ;;
     present ← os_path_exists audio_file_path ;
     if negb present then
       logger ERROR ("Audio file not created: " +:+ audio_file_path) ;;
       mret (None, None)
     else
       try_finally
         (attempt env self audio_file_path
            (form_data self language_code tag_audio_events num_speakers
               timestamps_granularity diarize enable_logging))
         (cleanup env audio_file_path)).
Proof. reflexivity. Qed.

(** The cleanup never raises: it removes the file, or finds none, or logs
    the refusal. *)
Lemma cleanup_run path w :
  ∃ w', cleanup env path w = (inr (), w') ∧ sent w' = sent w
    ∧ (fs w' !! path = None
       ∨ ∃ e, remove_fault env path = Some e ∧ fs w' = fs w
              ∧ last (logs w')
                = Some (WARNING, "Could not remove temp file " +:+ path
                                 +:+ ": " +:+ exn_str e)).
Proof.
  unfold cleanup, try_except, os_remove, logger, modify.
  destruct (remove_fault env path) as [e|] eqn:Hfault.
  - eexists. split_and!; [done..|]. right. exists e. simpl.
    split_and!; [done..|]. by rewrite last_snoc.
  - destruct (fs w !! path) as [content|] eqn:Hfile.
    + eexists. split_and!; [done..|]. left. simpl. apply lookup_delete_eq.
    + eexists. split_and!; [done..|]. left. done.
Qed.

Lemma snoc_not_self {A} (l : list A) (x : A) : l ≠ (l ++ [x])%list.
Proof.
  intros H. apply (f_equal length) in H. rewrite length_app in H. simpl in H. lia.
Qed.

Lemma read_response_run response w r w' :
  read_response response w = (r, w') →
  fs w' = fs w ∧ sent w' = sent w ∧ r ≠ inr (None, None).
Proof.
  unfold read_response, response_json, json_get, json_strip, logger, modify,
    raise, mbind, M_bind, mret, M_ret.
  repeat case_match; simplify_eq/=; intros; simplify_eq/=; done.
Qed.

(** The guarded request never raises and leaves storage alone; it hands at
    most one request to the transport, the one built from the artifact. *)
Lemma attempt_run path data w :
  ∃ o w', attempt env self path data w = (inr o, w')
    ∧ fs w' = fs w ∧ o ≠ (None, None)
    ∧ (sent w' = sent w
       ∨ ∃ content, fs w !! path = Some content
           ∧ sent w' = (sent w ++ [the_request self path content data])%list).
Proof.
  unfold attempt, try_except, open_rb, requests_post, logger, modify,
    mbind, M_bind, mret, M_ret.
  destruct (open_fault env path) as [e|].
  { eexists _, _. split_and!; [done..|]. by left. }
  destruct (fs w !! path) as [content|] eqn:Hfile.
  2:{ eexists _, _. split_and!; [done..|]. by left. }
  fold (the_request self path content data).
  destruct (http env _) as [e|response].
  { eexists _, _. split_and!; [done..|]. right. by exists content. }
  destruct (read_response response _) as [[e|o] w3] eqn:Hread;
    apply read_response_run in Hread as (Hfs & Hsent & Hne); simpl in *.
  - eexists _, _. split_and!; [done..|]. right. exists content. by rewrite Hsent.
  - eexists _, _. split_and!; [done | done | by intros -> |]. right.
    exists content. by rewrite Hsent.
Qed.

Lemma attempt_answered path data w o w' req response :
  attempt env self path data w = (inr o, w') →
  sent w' = (sent w ++ [req])%list →
  http env req = inr response →
  ∃ w2 w3, read_response response w2 = (inr o, w3)
         ∨ ∃ e, read_response response w2 = (inl e, w3)
                ∧ o = (None, Some (exn_str e)).
Proof.
  unfold attempt, try_except, open_rb, requests_post, logger, modify,
    mbind, M_bind, mret, M_ret.
  destruct (open_fault env path) as [e|].
  { intros [= <- <-] Hsent. simpl in Hsent. by apply snoc_not_self in Hsent. }
  destruct (fs w !! path) as [content|] eqn:Hfile.
  2:{ intros [= <- <-] Hsent. simpl in Hsent. by apply snoc_not_self in Hsent. }
  fold (the_request self path content data).
  intros Hrun Hsent Hreply.
  assert (req = the_request self path content data) as ->.
  { destruct (http env (the_request _ _ _ _)) as [e|response'].
    - by simplify_eq/=.
    - destruct (read_response response' _) as [[e|o'] w3] eqn:Hread;
        apply read_response_run in Hread as (_ & Hs & _);
        simplify_eq/=; rewrite Hs in Hsent; simpl in Hsent;
        by apply app_inv_head in Hsent as [= ->]. }
  rewrite Hreply in Hrun.
  destruct (read_response response _) as [[e|o'] w3] eqn:Hread.
  - simplify_eq/=. eexists _, _. right. eauto.
  - simplify_eq/=. eexists _, _. left. eauto.
Qed.

(** *** The three ways through [speech_to_text] *)

Lemma speech_to_text_run opus_data session_id language_code tag_audio_events
    num_speakers timestamps_granularity diarize enable_logging w r w' :
  speech_to_text env self opus_data session_id language_code tag_audio_events
    num_speakers timestamps_granularity diarize enable_logging w = (r, w') →
  (* the decode-and-write step raises *)
  (∃ e, save_audio_to_file env self opus_data session_id w = (inl e, w')
        ∧ r = inl e)
  ∨ ∃ path w1,
      save_audio_to_file env self opus_data session_id w = (inr path, w1)
      ∧ ((* the artifact is not there *)
         (fs (set_fs (others env) w1) !! path = None
          ∧ r = inr (None, None)
          ∧ fs w' = others env (fs w1) ∧ sent w' = sent w1)
         ∨ (* the request is attempted, then the cleanup runs *)
         (is_Some (fs (set_fs (others env) w1) !! path)
          ∧ ∃ o w3,
              attempt env self path
                (form_data self language_code tag_audio_events num_speakers
                   timestamps_granularity diarize enable_logging)
                (set_fs (others env) w1) = (inr o, w3)
              ∧ cleanup env path w3 = (inr (), w')
              ∧ r = inr o)).
Proof.
  rewrite speech_to_text_blocks.
  unfold mbind at 1, M_bind at 1.
  destruct (save_audio_to_file env self opus_data session_id w)
    as [[e|path] w1] eqn:Hsave.
  { intros [= <- <-]. left. by exists e. }
  intros Hrun. right. exists path, w1. split; [done|]. revert Hrun.
  unfold mbind, M_bind, others_act, os_path_exists, modify, try_finally,
    logger, modify, mret, M_ret.
  case_bool_decide as Hpresent; simpl.
  - destruct (attempt_run path
                (form_data self language_code tag_audio_events num_speakers
                   timestamps_granularity diarize enable_logging)
                (set_fs (others env) w1)) as (o & w3 & -> & _).
    destruct (cleanup_run path w3) as (w4 & Hclean & _). rewrite Hclean.
    intros [= <- <-]. right. split; [done|]. by exists o, w3.
  - intros [= <- <-]. left. simpl. split_and!; try done.
    by apply eq_None_not_Some.
Qed.

Lemma read_response_200 response d s w :
  status_code response = 200 →
  json_body response = inr (JDict d) →
  default (JStr "") (dict_get d "text") = JStr s →
  read_response response w = (inr (Some (strip s), None), w).
Proof.
  intros Hstatus Hjson Htext.
  unfold read_response, response_json, json_get, json_strip, mbind, M_bind,
    mret, M_ret.
  rewrite Hstatus, Hjson. simpl. by rewrite Htext.
Qed.

Lemma read_response_other response w r w' :
  status_code response ≠ 200 →
  read_response response w = (r, w') →
  r = inr (None, Some (text response)).
Proof.
  intros Hstatus. unfold read_response.
  destruct (Z.eqb_spec (status_code response) 200) as [|_]; [done|].
  unfold logger, modify, mbind, M_bind, mret, M_ret. by intros [= <- <-].
Qed.

(** What a run hands to the transport: nothing, or the one request built
    from the artifact and the form fields. *)
Lemma speech_to_text_sent opus_data session_id language_code tag_audio_events
    num_speakers timestamps_granularity diarize enable_logging w r w' :
  speech_to_text env self opus_data session_id language_code tag_audio_events
    num_speakers timestamps_granularity diarize enable_logging w = (r, w') →
  sent w' = sent w
  ∨ ∃ path content,
      sent w' = (sent w ++ [the_request self path content
                   (form_data self language_code tag_audio_events num_speakers
                      timestamps_granularity diarize enable_logging)])%list.
Proof.
  intros Hrun.
  apply speech_to_text_run in Hrun
    as [(e & Hsave & _)|(path & w1 & Hsave & Hrest)];
    apply save_run in Hsave as [Hsent1 _]; [by left|].
  destruct Hrest as [(_ & _ & _ & Hsent)|(_ & o & w3 & Hatt & Hclean & _)];
    [left; congruence|].
  destruct (cleanup_run path w3) as (w4 & Hclean' & Hsent4 & _).
  rewrite Hclean in Hclean'. injection Hclean' as <-.
  destruct (attempt_run path
              (form_data self language_code tag_audio_events num_speakers
                 timestamps_granularity diarize enable_logging)
              (set_fs (others env) w1))
    as (o' & w3' & Hatt' & _ & _ & Hsent3).
  rewrite Hatt in Hatt'. injection Hatt' as <- <-.
  destruct Hsent3 as [Hsent3|(content & _ & Hsent3)].
  - left. rewrite Hsent4, Hsent3. exact Hsent1.
  - right. exists path, content. rewrite Hsent4, Hsent3. simpl. by rewrite Hsent1.
Qed.

(** When the transport answered the request of a run, the outcome of the run
    is what reading that response gives. *)
Lemma speech_to_text_answered opus_data session_id language_code
    tag_audio_events num_speakers timestamps_granularity diarize
    enable_logging w r w' req response :
  speech_to_text env self opus_data session_id language_code tag_audio_events
    num_speakers timestamps_granularity diarize enable_logging w = (r, w') →
  sent w' = (sent w ++ [req])%list →
  http env req = inr response →
  ∃ w2 w3,
    (∃ o, read_response response w2 = (inr o, w3) ∧ r = inr o)
    ∨ (∃ e, read_response response w2 = (inl e, w3)
            ∧ r = inr (None, Some (exn_str e))).
Proof.
  intros Hrun Hsent Hreply.
  apply speech_to_text_run in Hrun
    as [(e & Hsave & _)|(path & w1 & Hsave & Hrest)];
    apply save_run in Hsave as [Hsent1 _].
  { rewrite Hsent1 in Hsent. by apply snoc_not_self in Hsent. }
  destruct Hrest as [(_ & _ & _ & Hsent')|(_ & o & w3 & Hatt & Hclean & ->)].
  { rewrite Hsent', Hsent1 in Hsent. by apply snoc_not_self in Hsent. }
  destruct (cleanup_run path w3) as (w4 & Hclean' & Hsent4 & _).
  rewrite Hclean in Hclean'. injection Hclean' as <-.
  rewrite Hsent4 in Hsent.
  eapply attempt_answered in Hatt as (w2 & w5 & Hread); 
    [|simpl; rewrite Hsent1; exact Hsent|done].
  exists w2, w5. destruct Hread as [Hread|(e & Hread & ->)]; [left|right]; eauto.
Qed.

End Facts.

(** ** Counting frames *)

Lemma decoded_length (rs : list (exn + bytes)) :
  length (decoded rs) = successes rs.
Proof.
  unfold decoded, successes.
  induction rs as [|[e|frame] rs IH]; simpl; [done | exact IH | by f_equal].
Qed.

Lemma decode_results_length env decoder opus_data :
  length (decode_results env decoder opus_data) = length opus_data.
Proof.
  revert decoder.
  induction opus_data as [|opus_packet rest IH]; intros decoder; simpl; [done|].
  destruct (decode env decoder opus_packet 960) as [r decoder']. simpl.
  by rewrite IH.
Qed.

(** ** The form fields *)

Lemma form_data_language self language_code tag_audio_events num_speakers
    timestamps_granularity diarize enable_logging :
  dict_get (form_data self language_code tag_audio_events num_speakers
              timestamps_granularity diarize enable_logging) "language_code"
  = if truthy_str language_code then language_code else None.
Proof.
  unfold form_data.
  destruct language_code as [lc|], num_speakers as [n|]; simpl;
    repeat (case_match; simpl); done.
Qed.

Lemma form_data_speakers self language_code tag_audio_events num_speakers
    timestamps_granularity diarize enable_logging :
  dict_get (form_data self language_code tag_audio_events num_speakers
              timestamps_granularity diarize enable_logging) "num_speakers"
  = if truthy_int num_speakers then str_of_int <$> num_speakers else None.
Proof.
  unfold form_data.
  destruct language_code as [lc|], num_speakers as [n|]; simpl;
    repeat (case_match; simpl); done.
Qed.

(** * The claims *)

Import Scenario.

(** ** C1: the artifact after the pipeline returns *)

(** C1, counterexample.  [os.remove] is refused (permission denied).  The
    service answers 200, [speech_to_text] returns [("hello world", None)],
    the refusal is swallowed, and the artifact written by
    [save_audio_to_file] is still on storage. *)
Lemma artifact_left_when_remove_refused :
  (save_audio_to_file (remove_refused (inr hello)) provider packets "s1" w0).1
    = inr the_path
  ∧ (run (remove_refused (inr hello))).1 = inr (Some "hello world", None)
  ∧ is_Some (fs (run (remove_refused (inr hello))).2 !! the_path).
Proof. vm_compute. split_and!; [reflexivity..|]. eexists. reflexivity. Qed.

(** C1, amended.  Whenever [speech_to_text] returns, in whichever branch,
    either the artifact path is absent from storage, or [os.remove] was
    refused on it and the last thing logged is the warning about that
    refusal. *)
Theorem artifact_absent_or_refusal_logged env self opus_data session_id
    language_code tag_audio_events num_speakers timestamps_granularity diarize
    enable_logging w o w' :
  speech_to_text env self opus_data session_id language_code tag_audio_events
    num_speakers timestamps_granularity diarize enable_logging w
    = (inr o, w') →
  fs w' !! artifact_path env self session_id w = None
  ∨ ∃ e, remove_fault env (artifact_path env self session_id w) = Some e
         ∧ last (logs w')
           = Some (WARNING,
                   "Could not remove temp file "
                   +:+ artifact_path env self session_id w +:+ ": "
                   +:+ exn_str e).
Proof.
  intros Hrun. set (path := artifact_path env self session_id w).
  apply speech_to_text_run in Hrun
    as [(e & _ & [=])|(path' & w1 & Hsave & Hrest)].
  apply save_run in Hsave as [_ Hsave].
  destruct (Hsave path' eq_refl) as (Hpath & _). fold path in Hpath. subst path'.
  destruct Hrest as [(Habsent & _ & Hfs & _)|(_ & o' & w3 & _ & Hclean & _)].
  - left. by rewrite Hfs.
  - destruct (cleanup_run env path w3) as (w4 & Hclean' & _ & Hfinal).
    rewrite Hclean in Hclean'. injection Hclean' as <-.
    destruct Hfinal as [Hgone|(e & Hfault & _ & Hlog)]; [by left|].
    right. by exists e.
Qed.

Lemma artifact_absent_or_refusal_logged_witness :
  fs (run (quiet (inr hello))).2
    !! artifact_path (quiet (inr hello)) provider "s1" w0 = None
  ∨ ∃ e, remove_fault (quiet (inr hello))
           (artifact_path (quiet (inr hello)) provider "s1" w0) = Some e
         ∧ last (logs (run (quiet (inr hello))).2)
           = Some (WARNING,
                   "Could not remove temp file "
                   +:+ artifact_path (quiet (inr hello)) provider "s1" w0
                   +:+ ": " +:+ exn_str e).
Proof.
  apply (artifact_absent_or_refusal_logged (quiet (inr hello)) provider packets
           "s1" None true None "word" false true w0
           (Some "hello world", None) (run (quiet (inr hello))).2).
  vm_compute. reflexivity.
Defined.

(** ** C2: one frame per packet that decodes *)

(** C2.  For every packet list whose failed decodes raise [OpusError] (what
    the decoder raises on a packet it cannot decode), the loop of
    [save_audio_to_file] runs to its end; the frames it has accumulated are
    the frames of the packets that decoded, in order, so their number is the
    number of such packets; every packet, also after a corrupt one, was given
    to the decoder; and, unless [wave] fails, these frames joined are what
    [save_audio_to_file] writes into the container. *)
Theorem frames_equal_successes env self opus_data session_id w :
  opus_clean (decode_results env (new_decoder env 16000 1) opus_data) →
  ∃ pcm_data w',
    decode_loop env (new_decoder env 16000 1) opus_data [] w
      = (inr pcm_data, w')
    ∧ pcm_data
      = decoded (decode_results env (new_decoder env 16000 1) opus_data)
    ∧ length pcm_data
      = successes (decode_results env (new_decoder env 16000 1) opus_data)
    ∧ length (decode_results env (new_decoder env 16000 1) opus_data)
      = length opus_data
    ∧ (wave_fault env (artifact_path env self session_id w) (concat pcm_data)
         = None →
       ∃ w1,
         save_audio_to_file env self opus_data session_id w
           = (inr (artifact_path env self session_id w), w1)
         ∧ fs w1 !! artifact_path env self session_id w
           = Some (wav_file 1 2 16000 (concat pcm_data))).
Proof.
  intros Hclean.
  destruct (decode_loop_clean env (new_decoder env 16000 1) opus_data [] w
              Hclean) as [w' Hloop].
  eexists _, w'. split_and!.
  - exact Hloop.
  - reflexivity.
  - apply decoded_length.
  - apply decode_results_length.
  - intros Hwave.
    destruct (save_returns env self opus_data session_id w Hclean Hwave)
      as [w1 Hsave].
    exists w1. split; [exact Hsave|].
    apply save_run in Hsave as [_ Hsave].
    destruct (Hsave _ eq_refl) as (_ & _ & ->). apply lookup_insert_eq.
Qed.

Lemma frames_equal_successes_witness :
  ∃ pcm_data w',
    decode_loop (quiet (inr hello)) O packets [] w0 = (inr pcm_data, w')
    ∧ pcm_data = [repeat x00 1920; repeat x00 1920]
    ∧ length pcm_data = 2%nat
    ∧ length (decode_results (quiet (inr hello)) O packets) = 3%nat
    ∧ (wave_fault (quiet (inr hello)) the_path (concat pcm_data) = None →
       ∃ w1,
         save_audio_to_file (quiet (inr hello)) provider packets "s1" w0
           = (inr the_path, w1)
         ∧ fs w1 !! the_path = Some (wav_file 1 2 16000 (concat pcm_data))).
Proof.
  apply (frames_equal_successes (quiet (inr hello)) provider packets "s1" w0).
  repeat constructor; intros e [= <-]; reflexivity.
Defined.

(** ** C3: HTTP 200 *)

(** C3, counterexample.  Three answers with status 200 for which no text is
    returned: the body [{"text": null}], the body [[]] and a body that is not
    JSON.  Each time the exception is caught and [speech_to_text] returns
    [(None, str(e))]. *)
Lemma ok_status_without_text_is_an_error :
  status_code Cases.null_text = 200
  ∧ (run (quiet (inr Cases.null_text))).1
    = inr (None, Some "'NoneType' object has no attribute 'strip'")
  ∧ status_code Cases.empty_list = 200
  ∧ (run (quiet (inr Cases.empty_list))).1
    = inr (None, Some "'list' object has no attribute 'get'")
  ∧ status_code Cases.garbled = 200
  ∧ (run (quiet (inr Cases.garbled))).1
    = inr (None, Some "Expecting value: line 1 column 1 (char 0)").
Proof. vm_compute. split_and!; reflexivity. Qed.

(** C3, amended.  When the transport answered the request of a run with
    status 200 and a body that parses as a JSON object whose [text] field,
    the empty string when absent, is the string [s], [speech_to_text]
    returns [(t, None)] where [t] is [s.strip()]: [s] is a run of whitespace
    characters, then [t], then a run of whitespace characters, and [t]
    neither starts nor ends with a whitespace character. *)
Theorem ok_response_gives_stripped_text env self opus_data session_id
    language_code tag_audio_events num_speakers timestamps_granularity diarize
    enable_logging w r w' req response d s :
  speech_to_text env self opus_data session_id language_code tag_audio_events
    num_speakers timestamps_granularity diarize enable_logging w = (r, w') →
  sent w' = (sent w ++ [req])%list →
  http env req = inr response →
  status_code response = 200 →
  json_body response = inr (JDict d) →
  default (JStr "") (dict_get d "text") = JStr s →
  r = inr (Some (strip s), None)
  ∧ ∃ pre post,
      s = pre +:+ strip s +:+ post
      ∧ spaces pre ∧ spaces post
      ∧ ¬ starts_with_space (strip s) ∧ ¬ ends_with_space (strip s).
Proof.
  intros Hrun Hsent Hreply Hstatus Hjson Htext.
  split; [|apply strip_spec].
  destruct (speech_to_text_answered env self _ _ _ _ _ _ _ _ _ _ _ _ _
              Hrun Hsent Hreply) as (w2 & w3 & Hread).
  rewrite (read_response_200 _ d s w2 Hstatus Hjson Htext) in Hread.
  destruct Hread as [(o & [= <- _] & ->)|(e & [=] & _)]. reflexivity.
Qed.

Lemma ok_response_gives_stripped_text_witness :
  (run (quiet (inr hello))).1 = inr (Some "hello world", None)
  ∧ ∃ pre post,
      " hello world " = pre +:+ "hello world" +:+ post
      ∧ spaces pre ∧ spaces post
      ∧ ¬ starts_with_space "hello world" ∧ ¬ ends_with_space "hello world".
Proof.
  apply (ok_response_gives_stripped_text (quiet (inr hello)) provider packets
           "s1" None true None "word" false true w0
           (run (quiet (inr hello))).1 (run (quiet (inr hello))).2
           (the_request provider the_path
              (wav_file 1 2 16000 (repeat x00 3840))
              (form_data provider None true None "word" false true))
           hello [("text", JStr " hello world ")] " hello world ").
  - vm_compute. reflexivity.
  - vm_compute. reflexivity.
  - reflexivity.
  - reflexivity.
  - reflexivity.
  - reflexivity.
Defined.

(** ** C4: what reaches the caller *)

(** C4.  The claim holds of the documented contract and fails on the code:
    when [wave] cannot write (no space left), the exception leaves
    [save_audio_to_file], which is called before the [try], and
    [speech_to_text] raises it instead of returning a pair. *)
Lemma write_failure_reaches_caller :
  (run (disk_full (inr hello))).1 = inl no_space.
Proof. vm_compute. reflexivity. Qed.

(** X24.  Once [save_audio_to_file] has returned, [speech_to_text] returns
    a pair: no exception of the existence check, of opening the artifact, of
    the request, of reading the response or of the cleanup reaches the
    caller. *)
Theorem returns_pair_once_saved env self opus_data session_id language_code
    tag_audio_events num_speakers timestamps_granularity diarize
    enable_logging w path w1 :
  save_audio_to_file env self opus_data session_id w = (inr path, w1) →
  ∃ o w',
    speech_to_text env self opus_data session_id language_code
      tag_audio_events num_speakers timestamps_granularity diarize
      enable_logging w = (inr o, w').
Proof.
  intros Hsave.
  destruct (speech_to_text env self opus_data session_id language_code
              tag_audio_events num_speakers timestamps_granularity diarize
              enable_logging w) as [r w'] eqn:Hrun.
  apply speech_to_text_run in Hrun
    as [(e & Hsave' & _)|(path' & w1' & _ & Hrest)]; [congruence|].
  destruct Hrest as [(_ & -> & _)|(_ & o & w3 & _ & _ & ->)]; eauto.
Qed.

Lemma returns_pair_once_saved_witness :
  ∃ o w', run (quiet (inl timed_out)) = (inr o, w').
Proof.
  eapply (returns_pair_once_saved (quiet (inl timed_out)) provider packets
            "s1" None true None "word" false true w0 the_path).
  vm_compute. reflexivity.
Defined.

(** ** C5: the API-key header *)

(** C5, counterexample.  In the one request of the 200 scenario no header
    is named [api-key]; the key is in the header named [xi-api-key]. *)
Lemma no_header_named_api_key :
  ∃ req, sent (run (quiet (inr hello))).2 = [req]
         ∧ dict_get (req_headers req) "api-key" = None
         ∧ dict_get (req_headers req) "xi-api-key" = Some (api_key provider).
Proof. eexists. vm_compute. split_and!; reflexivity. Qed.

(** C5, amended.  Every request [speech_to_text] hands to the transport
    carries the configured API key in the header named [xi-api-key]. *)
Theorem request_carries_xi_api_key env self opus_data session_id language_code
    tag_audio_events num_speakers timestamps_granularity diarize
    enable_logging w :
  ∃ new,
    sent (speech_to_text env self opus_data session_id language_code
            tag_audio_events num_speakers timestamps_granularity diarize
            enable_logging w).2 = (sent w ++ new)%list
    ∧ Forall (λ req, dict_get (req_headers req) "xi-api-key"
                     = Some (api_key self)) new.
Proof.
  destruct (speech_to_text env self opus_data session_id language_code
              tag_audio_events num_speakers timestamps_granularity diarize
              enable_logging w) as [r w'] eqn:Hrun.
  apply speech_to_text_sent in Hrun as [Hsent|(path & content & Hsent)]; simpl.
  - exists []. by rewrite app_nil_r.
  - eexists [_]. split; [exact Hsent|]. by constructor.
Qed.

(** ** C6: any other status *)

(** C6.  When the transport answered the request of a run with a status
    other than 200, [speech_to_text] returns [(None, response.text)]. *)
Theorem error_response_gives_body env self opus_data session_id language_code
    tag_audio_events num_speakers timestamps_granularity diarize
    enable_logging w r w' req response :
  speech_to_text env self opus_data session_id language_code tag_audio_events
    num_speakers timestamps_granularity diarize enable_logging w = (r, w') →
  sent w' = (sent w ++ [req])%list →
  http env req = inr response →
  status_code response ≠ 200 →
  r = inr (None, Some (text response)).
Proof.
  intros Hrun Hsent Hreply Hstatus.
  destruct (speech_to_text_answered env self _ _ _ _ _ _ _ _ _ _ _ _ _
              Hrun Hsent Hreply) as (w2 & w3 & Hread).
  destruct Hread as [(o & Hread & ->)|(e & Hread & _)];
    apply (read_response_other _ _ _ _ Hstatus) in Hread; by simplify_eq.
Qed.

Lemma error_response_gives_body_witness :
  (run (quiet (inr rate_limited))).1 = inr (None, Some "rate limited").
Proof.
  apply (error_response_gives_body (quiet (inr rate_limited)) provider packets
           "s1" None true None "word" false true w0
           (run (quiet (inr rate_limited))).1
           (run (quiet (inr rate_limited))).2
           (the_request provider the_path
              (wav_file 1 2 16000 (repeat x00 3840))
              (form_data provider None true None "word" false true))
           rate_limited).
  - vm_compute. reflexivity.
  - vm_compute. reflexivity.
  - reflexivity.
  - simpl. lia.
Defined.

(** ** C7: the artifact is not there *)

(** C7.  When [save_audio_to_file] has returned a path and, at the existence
    check, no file is at that path, [speech_to_text] returns [(None, None)];
    it hands nothing to the transport, leaves storage as it found it and logs
    that the audio file was not created. *)
Theorem missing_artifact_short_circuits env self opus_data session_id
    language_code tag_audio_events num_speakers timestamps_granularity diarize
    enable_logging w path w1 :
  save_audio_to_file env self opus_data session_id w = (inr path, w1) →
  others env (fs w1) !! path = None →
  ∃ w',
    speech_to_text env self opus_data session_id language_code
      tag_audio_events num_speakers timestamps_granularity diarize
      enable_logging w = (inr (None, None), w')
    ∧ sent w' = sent w
    ∧ fs w' = others env (fs w1)
    ∧ last (logs w') = Some (ERROR, "Audio file not created: " +:+ path).
Proof.
  intros Hsave Habsent.
  rewrite speech_to_text_blocks. unfold mbind at 1, M_bind at 1. rewrite Hsave.
  apply save_run in Hsave as [Hsent _].
  unfold mbind, M_bind, others_act, os_path_exists, modify, logger, modify,
    mret, M_ret. simpl.
  rewrite bool_decide_eq_false_2 by (rewrite Habsent; by intros [? [=]]).
  simpl. eexists. split_and!; [reflexivity | exact Hsent | reflexivity |].
  simpl. by rewrite last_snoc.
Qed.

Lemma missing_artifact_short_circuits_witness :
  ∃ w',
    run (swept (inr hello)) = (inr (None, None), w')
    ∧ sent w' = []
    ∧ fs w' = ∅
    ∧ last (logs w') = Some (ERROR, "Audio file not created: " +:+ the_path).
Proof.
  apply (missing_artifact_short_circuits (swept (inr hello)) provider packets
           "s1" None true None "word" false true w0 the_path
           (save_audio_to_file (swept (inr hello)) provider packets "s1" w0).2).
  - vm_compute. reflexivity.
  - reflexivity.
Defined.

(** ** C8: the length of the container *)

(** C8.  When [save_audio_to_file] returns and every decoded frame has 960
    samples of 2 bytes (silence included), the file at the returned path is
    44 header bytes followed by 1920 bytes for each packet that decoded. *)
Theorem container_length env self opus_data session_id w path w1 :
  save_audio_to_file env self opus_data session_id w = (inr path, w1) →
  fixed_frame (decode_results env (new_decoder env 16000 1) opus_data) →
  ∃ content,
    fs w1 !! path = Some content
    ∧ length content
      = (header_size
         + successes (decode_results env (new_decoder env 16000 1) opus_data)
           * 1920)%nat.
Proof.
  intros Hsave Hfixed.
  apply save_run in Hsave as [_ Hsave].
  destruct (Hsave path eq_refl) as (_ & _ & Hfs).
  eexists. split.
  - rewrite Hfs. apply lookup_insert_eq.
  - rewrite wav_file_length.
    rewrite (concat_fixed_length _ 1920) by by apply decoded_fixed.
    by rewrite decoded_length.
Qed.

Lemma container_length_witness :
  ∃ content,
    fs (save_audio_to_file (quiet (inr hello)) provider packets "s1" w0).2
      !! the_path = Some content
    ∧ length content = (44 + 2 * 1920)%nat.
Proof.
  apply (container_length (quiet (inr hello)) provider packets "s1" w0 the_path
           (save_audio_to_file (quiet (inr hello)) provider packets "s1" w0).2).
  - vm_compute. reflexivity.
  - repeat constructor; intros frame [= <-]; reflexivity.
Defined.

(** ** C9: the artifact is where the check looks *)

(** C9.  When [save_audio_to_file] returns and other processes take no file
    away, the returned path is the path it built, the container is on storage
    at that path after the write and at the existence check, and
    [speech_to_text] does not return [(None, None)]. *)
Theorem saved_artifact_is_found env self opus_data session_id language_code
    tag_audio_events num_speakers timestamps_granularity diarize
    enable_logging w path w1 :
  save_audio_to_file env self opus_data session_id w = (inr path, w1) →
  keeps_files env →
  path = artifact_path env self session_id w
  ∧ fs w1 !! path
    = Some (wav_file 1 2 16000
              (concat (decoded (decode_results env (new_decoder env 16000 1)
                                  opus_data))))
  ∧ is_Some (others env (fs w1) !! path)
  ∧ (speech_to_text env self opus_data session_id language_code
       tag_audio_events num_speakers timestamps_granularity diarize
       enable_logging w).1 ≠ inr (None, None).
Proof.
  intros Hsave Hkeeps.
  pose proof Hsave as Hsave'. apply save_run in Hsave' as [_ Hsaved].
  destruct (Hsaved path eq_refl) as (Hpath & _ & Hfs).
  assert (fs w1 !! path
          = Some (wav_file 1 2 16000
                    (concat (decoded (decode_results env
                                        (new_decoder env 16000 1) opus_data)))))
    as Hthere.
  { rewrite Hfs. apply lookup_insert_eq. }
  split_and!; [done | done | apply Hkeeps; by rewrite Hthere |].
  destruct (speech_to_text env self opus_data session_id language_code
              tag_audio_events num_speakers timestamps_granularity diarize
              enable_logging w) as [r w'] eqn:Hrun.
  apply speech_to_text_run in Hrun
    as [(e & _ & ->)|(path' & w1' & Hsave'' & Hrest)]; [done|].
  rewrite Hsave in Hsave''. injection Hsave'' as <- <-. simpl.
  destruct Hrest as [(Habsent & _)|(_ & o & w3 & Hatt & _ & ->)].
  - assert (is_Some (others env (fs w1) !! path)) as [content Hcontent].
    { apply Hkeeps. by rewrite Hthere. }
    simpl in Habsent. congruence.
  - destruct (attempt_run env self path
                (form_data self language_code tag_audio_events num_speakers
                   timestamps_granularity diarize enable_logging)
                (set_fs (others env) w1)) as (o' & w3' & Hatt' & _ & Hne & _).
    rewrite Hatt in Hatt'. injection Hatt' as <- <-. by intros [= ->].
Qed.

Lemma saved_artifact_is_found_witness :
  the_path = artifact_path (quiet (inl timed_out)) provider "s1" w0
  ∧ fs (save_audio_to_file (quiet (inl timed_out)) provider packets "s1"
          w0).2 !! the_path
    = Some (wav_file 1 2 16000
              (concat (decoded (decode_results (quiet (inl timed_out)) O
                                  packets))))
  ∧ is_Some (others (quiet (inl timed_out))
               (fs (save_audio_to_file (quiet (inl timed_out)) provider
                      packets "s1" w0).2) !! the_path)
  ∧ (run (quiet (inl timed_out))).1 ≠ inr (None, None).
Proof.
  apply (saved_artifact_is_found (quiet (inl timed_out)) provider packets "s1"
           None true None "word" false true w0 the_path
           (save_audio_to_file (quiet (inl timed_out)) provider packets "s1"
              w0).2).
  - vm_compute. reflexivity.
  - intros m path Hm. exact Hm.
Defined.

(** ** C10: falsy options *)

(** C10.  In the request of a run, the form has a [language_code] field
    exactly when the argument is truthy, and then with its value; likewise
    [num_speakers], as a decimal string.  Passing [""] for the language code
    or [0] for the number of speakers is the same as passing [None]: the two
    calls are the same computation. *)
Theorem falsy_options_leave_field_out env self opus_data session_id
    language_code tag_audio_events num_speakers timestamps_granularity diarize
    enable_logging w r w' req :
  speech_to_text env self opus_data session_id language_code tag_audio_events
    num_speakers timestamps_granularity diarize enable_logging w = (r, w') →
  sent w' = (sent w ++ [req])%list →
  dict_get (req_data req) "language_code"
    = (if truthy_str language_code then language_code else None)
  ∧ dict_get (req_data req) "num_speakers"
    = (if truthy_int num_speakers then str_of_int <$> num_speakers else None)
  ∧ speech_to_text env self opus_data session_id (Some "") tag_audio_events
      num_speakers timestamps_granularity diarize enable_logging
    = speech_to_text env self opus_data session_id None tag_audio_events
        num_speakers timestamps_granularity diarize enable_logging
  ∧ speech_to_text env self opus_data session_id language_code
      tag_audio_events (Some 0) timestamps_granularity diarize enable_logging
    = speech_to_text env self opus_data session_id language_code
        tag_audio_events None timestamps_granularity diarize enable_logging.
Proof.
  intros Hrun Hsent.
  apply speech_to_text_sent in Hrun as [Hsame|(path & content & Hsent')].
  { rewrite Hsame in Hsent. by apply snoc_not_self in Hsent. }
  rewrite Hsent' in Hsent. apply app_inv_head in Hsent as [= <-]. simpl.
  split_and!.
  - apply form_data_language.
  - apply form_data_speakers.
  - reflexivity.
  - reflexivity.
Qed.

Lemma falsy_options_leave_field_out_witness :
  dict_get (form_data provider (Some "") true (Some 0) "word" false true)
    "language_code" = None
  ∧ dict_get (form_data provider (Some "") true (Some 0) "word" false true)
      "num_speakers" = None
  ∧ speech_to_text (quiet (inr hello)) provider packets "s1" (Some "") true
      (Some 0) "word" false true
    = speech_to_text (quiet (inr hello)) provider packets "s1" None true
        (Some 0) "word" false true
  ∧ speech_to_text (quiet (inr hello)) provider packets "s1" (Some "") true
      (Some 0) "word" false true
    = speech_to_text (quiet (inr hello)) provider packets "s1" (Some "") true
        None "word" false true.
Proof.
  apply (falsy_options_leave_field_out (quiet (inr hello)) provider packets
           "s1" (Some "") true (Some 0) "word" false true w0
           (inr (Some "hello world", None))
           (speech_to_text (quiet (inr hello)) provider packets "s1" (Some "")
              true (Some 0) "word" false true w0).2
           (the_request provider the_path
              (wav_file 1 2 16000 (repeat x00 3840))
              (form_data provider (Some "") true (Some 0) "word" false true))).
  - vm_compute. reflexivity.
  - vm_compute. reflexivity.
Defined.

(** * Further properties *)

(** ** Reading little-endian fields back *)

Lemma byte_of_Z_value v : Z.of_N (Byte.to_N (byte_of_Z v)) = v mod 256.
Proof.
  unfold byte_of_Z.
  assert (0 <= v mod 256 < 256) as Hrange by (apply Z.mod_pos_bound; lia).
  destruct (Byte.of_N (Z.to_N (v mod 256))) as [b|] eqn:Hb; simpl.
  - apply Byte.to_of_N in Hb. rewrite Hb. lia.
  - apply Byte.of_N_None_iff in Hb. lia.
Qed.

Lemma le_value_le_bytes n v :
  le_value (le_bytes n v) = v mod 256 ^ Z.of_nat n.
Proof.
  revert v. induction n as [|n IH]; intros v.
  - simpl. by rewrite Z.mod_1_r.
  - cbn [le_bytes le_value]. rewrite byte_of_Z_value, IH.
    rewrite Nat2Z.inj_succ, Z.pow_succ_r by lia.
    assert (0 < 256 ^ Z.of_nat n) by (apply Z.pow_pos_nonneg; lia).
    rewrite Z.rem_mul_r by lia. reflexivity.
Qed.

Lemma le_value_small n v :
  0 <= v < 256 ^ Z.of_nat n → le_value (le_bytes n v) = v.
Proof. intros Hv. rewrite le_value_le_bytes. by apply Z.mod_small. Qed.

Lemma wav_file_fields frames :
  Z.of_nat (length frames) < 2 ^ 32 - 36 →
  let file := wav_file 1 2 16000 frames in
  take 4 file = list_byte_of_string "RIFF"
  ∧ field 4 4 file = 36 + Z.of_nat (length frames)
  ∧ take 4 (drop 8 file) = list_byte_of_string "WAVE"
  ∧ field 20 2 file = 1
  ∧ field 22 2 file = 1
  ∧ field 24 4 file = 16000
  ∧ field 28 4 file = 32000
  ∧ field 32 2 file = 2
  ∧ field 34 2 file = 16
  ∧ field 40 4 file = Z.of_nat (length frames)
  ∧ drop 44 file = frames.
Proof.
  intros Hlen file. unfold file, wav_file, wav_header, field.
  set (n := Z.of_nat (length frames)) in *.
  assert (0 <= n) by lia.
  split_and!; try reflexivity.
  - change (le_value (le_bytes 4 (36 + n)) = 36 + n). apply le_value_small. lia.
  - change (le_value (le_bytes 4 n) = n). apply le_value_small. lia.
Qed.

Section MoreFacts.
Context (env : Env) (self : ASRProvider).

(** ** More on the blocks *)

Lemma cleanup_removes path w :
  remove_fault env path = None →
  ∃ w', cleanup env path w = (inr (), w')
        ∧ fs w' = delete path (fs w) ∧ sent w' = sent w.
Proof.
  intros Hfault.
  unfold cleanup, try_except, os_remove, logger, modify. rewrite Hfault.
  destruct (fs w !! path) as [content|] eqn:Hfile.
  - eexists. split_and!; reflexivity.
  - eexists. split_and!; [reflexivity| |reflexivity]. simpl.
    by rewrite delete_id.
Qed.

Lemma attempt_request_inv path data w o w' req :
  attempt env self path data w = (inr o, w') →
  sent w' = (sent w ++ [req])%list →
  ∃ content, fs w !! path = Some content
             ∧ open_fault env path = None
             ∧ req = the_request self path content data.
Proof.
  intros Hatt Hsent.
  destruct (attempt_run env self path data w)
    as (o' & w'' & Hatt' & _ & _ & Hcases).
  rewrite Hatt in Hatt'. injection Hatt' as <- <-.
  destruct Hcases as [Hsame|(content & Hfile & Hsent')].
  { rewrite Hsame in Hsent. by apply snoc_not_self in Hsent. }
  rewrite Hsent' in Hsent. apply app_inv_head in Hsent as [= <-].
  exists content. split_and!; [done| |done].
  revert Hatt Hsent'.
  unfold attempt, try_except, open_rb, logger, modify, mbind, M_bind, mret, M_ret.
  destruct (open_fault env path) as [e|]; [|done].
  intros [= <- <-] Hs. simpl in Hs. by apply snoc_not_self in Hs.
Qed.

Lemma attempt_open_refused path data w e :
  open_fault env path = Some e →
  ∃ w', attempt env self path data w = (inr (None, Some (exn_str e)), w')
        ∧ sent w' = sent w ∧ fs w' = fs w.
Proof.
  intros Hfault.
  unfold attempt, try_except, open_rb, logger, modify, mbind, M_bind, mret, M_ret.
  rewrite Hfault. eexists. split_and!; reflexivity.
Qed.

Lemma attempt_transport_failure path data w content e :
  fs w !! path = Some content →
  open_fault env path = None →
  http env (the_request self path content data) = inl e →
  ∃ w', attempt env self path data w = (inr (None, Some (exn_str e)), w')
        ∧ sent w' = (sent w ++ [the_request self path content data])%list.
Proof.
  intros Hfile Hopen Hreply.
  unfold attempt, try_except, open_rb, requests_post, logger, modify,
    mbind, M_bind, mret, M_ret.
  rewrite Hopen, Hfile. fold (the_request self path content data).
  rewrite Hreply. eexists. split; reflexivity.
Qed.

Lemma speech_to_text_request opus_data session_id language_code
    tag_audio_events num_speakers timestamps_granularity diarize
    enable_logging w r w' req :
  speech_to_text env self opus_data session_id language_code tag_audio_events
    num_speakers timestamps_granularity diarize enable_logging w = (r, w') →
  sent w' = (sent w ++ [req])%list →
  ∃ path w1 content,
    save_audio_to_file env self opus_data session_id w = (inr path, w1)
    ∧ others env (fs w1) !! path = Some content
    ∧ open_fault env path = None
    ∧ req = the_request self path content
              (form_data self language_code tag_audio_events num_speakers
                 timestamps_granularity diarize enable_logging)
    ∧ ∃ o w3,
        attempt env self path
          (form_data self language_code tag_audio_events num_speakers
             timestamps_granularity diarize enable_logging)
          (set_fs (others env) w1) = (inr o, w3)
        ∧ r = inr o.
Proof.
  intros Hrun Hsent.
  apply speech_to_text_run in Hrun
    as [(e & Hsave & _)|(path & w1 & Hsave & Hrest)].
  { apply save_run in Hsave as [Hsent1 _].
    rewrite Hsent1 in Hsent. by apply snoc_not_self in Hsent. }
  pose proof Hsave as Hsave'. apply save_run in Hsave' as [Hsent1 _].
  destruct Hrest as [(_ & _ & _ & Hsent')|(_ & o & w3 & Hatt & Hclean & ->)].
  { rewrite Hsent', Hsent1 in Hsent. by apply snoc_not_self in Hsent. }
  destruct (cleanup_run env path w3) as (w4 & Hclean' & Hsent4 & _).
  rewrite Hclean in Hclean'. injection Hclean' as <-.
  rewrite Hsent4 in Hsent.
  pose proof Hatt as Hatt'.
  eapply attempt_request_inv in Hatt' as (content & Hfile & Hopen & ->);
    [|simpl; rewrite Hsent1; exact Hsent].
  exists path, w1, content. split_and!; [done..|]. by exists o, w3.
Qed.

(** ** What the decode loop logs, and what it leaves alone *)

Lemma decode_loop_logs decoder opus_data pcm_data w frames w' :
  decode_loop env decoder opus_data pcm_data w = (inr frames, w') →
  logs w' = (logs w ++ map opus_error_line
                         (failures (decode_results env decoder opus_data)))%list.
Proof.
  revert decoder pcm_data w.
  induction opus_data as [|opus_packet rest IH]; intros decoder pcm_data w; simpl.
  - intros [= <- <-]. by rewrite app_nil_r.
  - destruct (decode env decoder opus_packet 960) as [[e|frame] decoder'].
    + case_decide as Hcls; [|intros [=]].
      unfold mbind, M_bind, logger, modify. intros Hrun.
      apply IH in Hrun. rewrite Hrun. simpl. by rewrite <- app_assoc.
    + intros Hrun. by apply IH in Hrun.
Qed.

Lemma attempt_entropy path data w r w' :
  attempt env self path data w = (r, w') → entropy w' = entropy w.
Proof.
  unfold attempt, try_except, open_rb, requests_post, read_response,
    response_json, json_get, json_strip, raise, logger, modify,
    mbind, M_bind, mret, M_ret.
  repeat case_match; simplify_eq/=; intros; simplify_eq/=; done.
Qed.

Lemma cleanup_entropy path w r w' :
  cleanup env path w = (r, w') → entropy w' = entropy w.
Proof.
  unfold cleanup, try_except, os_remove, logger, modify.
  repeat case_match; simplify_eq/=; intros; simplify_eq/=; done.
Qed.

End MoreFacts.

(** ** Strings and paths *)

Lemma append_cancel_l (a x y : string) : a +:+ x = a +:+ y → x = y.
Proof. induction a as [|c a IH]; simpl; [done|]. intros [= H]. by apply IH. Qed.

Lemma append_length (x y : string) :
  String.length (x +:+ y) = (String.length x + String.length y)%nat.
Proof. induction x as [|c x IH]; simpl; [done | by rewrite IH]. Qed.

Lemma append_cancel_r (x y s : string) : x +:+ s = y +:+ s → x = y.
Proof.
  assert (∀ u v : string, u +:+ s = v +:+ s → String.length u = String.length v)
    as Hlen.
  { intros u v H. apply (f_equal String.length) in H.
    rewrite (append_length u s), (append_length v s) in H. lia. }
  revert y. induction x as [|c x IH]; intros [|d y] H.
  - done.
  - by apply Hlen in H.
  - by apply Hlen in H.
  - injection H as -> H. f_equal. by apply IH.
Qed.

Lemma artifact_path_inj env self session_id w w2 :
  artifact_path env self session_id w = artifact_path env self session_id w2 →
  uuid_of env (entropy w) = uuid_of env (entropy w2).
Proof.
  unfold artifact_path, os_path_join. simpl.
  intros H.
  assert ("elevenlabs_asr_" +:+ session_id +:+ "_" +:+ uuid_of env (entropy w)
            +:+ ".wav"
          = "elevenlabs_asr_" +:+ session_id +:+ "_"
            +:+ uuid_of env (entropy w2) +:+ ".wav") as Hname.
  { destruct (String.eqb (output_dir self) "" || ends_with_sep (output_dir self)).
    - by apply append_cancel_l in H.
    - apply append_cancel_l in H. by apply (append_cancel_l "/") in H. }
  apply (append_cancel_l "elevenlabs_asr_") in Hname.
  apply append_cancel_l in Hname. apply (append_cancel_l "_") in Hname.
  by apply append_cancel_r in Hname.
Qed.

(** ** Further properties of the pipeline *)

Import Cases.

(** X1.  When the transport raised on the request of a run (no connection,
    a timeout), [speech_to_text] returns [(None, str(e))]. *)
Theorem transport_failure_gives_message env self opus_data session_id
    language_code tag_audio_events num_speakers timestamps_granularity diarize
    enable_logging w r w' req e :
  speech_to_text env self opus_data session_id language_code tag_audio_events
    num_speakers timestamps_granularity diarize enable_logging w = (r, w') →
  sent w' = (sent w ++ [req])%list →
  http env req = inl e →
  r = inr (None, Some (exn_str e)).
Proof.
  intros Hrun Hsent Hreply.
  destruct (speech_to_text_request env self _ _ _ _ _ _ _ _ _ _ _ _ Hrun Hsent)
    as (path & w1 & content & _ & Hfile & Hopen & -> & o & w3 & Hatt & ->).
  destruct (attempt_transport_failure env self path _ (set_fs (others env) w1)
              content e Hfile Hopen Hreply) as (w4 & Hatt' & _).
  rewrite Hatt in Hatt'. by injection Hatt' as -> _.
Qed.

Lemma transport_failure_gives_message_witness :
  (run (quiet (inl timed_out))).1 = inr (None, Some "Connection timed out").
Proof.
  apply (transport_failure_gives_message (quiet (inl timed_out)) provider
           packets "s1" None true None "word" false true w0
           (run (quiet (inl timed_out))).1 (run (quiet (inl timed_out))).2
           (the_request provider the_path
              (wav_file 1 2 16000 (repeat x00 3840))
              (form_data provider None true None "word" false true))
           timed_out).
  - vm_compute. reflexivity.
  - vm_compute. reflexivity.
  - reflexivity.
Defined.

Lemma read_response_unreadable response w e :
  status_code response = 200 →
  (json_body response = inl e
   ∨ (∃ v, json_body response = inr v ∧ (∀ d, v ≠ JDict d)
           ∧ e = no_attribute v "get")
   ∨ (∃ d v, json_body response = inr (JDict d)
             ∧ default (JStr "") (dict_get d "text") = v
             ∧ (∀ s, v ≠ JStr s) ∧ e = no_attribute v "strip")) →
  read_response response w = (inl e, w).
Proof.
  intros Hstatus Hbody.
  unfold read_response, response_json, json_get, json_strip, raise,
    mbind, M_bind, mret, M_ret.
  rewrite Hstatus. simpl.
  destruct Hbody as [->|[(v & -> & Hv & ->)|(d & v & -> & Hd & Hv & ->)]].
  - done.
  - destruct v; try done. by destruct (Hv d).
  - simpl. rewrite Hd. destruct v; try done. by destruct (Hv s).
Qed.

(** X2.  When the request of a run was answered with status 200 and
    [response.json()] raises, [speech_to_text] returns [(None, str(e))], the
    message of the decode error. *)
Theorem undecodable_body_gives_message env self opus_data session_id
    language_code tag_audio_events num_speakers timestamps_granularity diarize
    enable_logging w r w' req response e :
  speech_to_text env self opus_data session_id language_code tag_audio_events
    num_speakers timestamps_granularity diarize enable_logging w = (r, w') →
  sent w' = (sent w ++ [req])%list →
  http env req = inr response →
  status_code response = 200 →
  json_body response = inl e →
  r = inr (None, Some (exn_str e)).
Proof.
  intros Hrun Hsent Hreply Hstatus Hjson.
  destruct (speech_to_text_answered env self _ _ _ _ _ _ _ _ _ _ _ _ _
              Hrun Hsent Hreply) as (w2 & w3 & Hread).
  rewrite (read_response_unreadable response w2 e Hstatus) in Hread
    by by left.
  by destruct Hread as [(o & [=] & _)|(e' & [= <- _] & ->)].
Qed.

Lemma undecodable_body_gives_message_witness :
  (run (quiet (inr garbled))).1
  = inr (None, Some "Expecting value: line 1 column 1 (char 0)").
Proof.
  apply (undecodable_body_gives_message (quiet (inr garbled)) provider
           packets "s1" None true None "word" false true w0
           (run (quiet (inr garbled))).1 (run (quiet (inr garbled))).2
           (the_request provider the_path
              (wav_file 1 2 16000 (repeat x00 3840))
              (form_data provider None true None "word" false true))
           garbled
           (Exn ValueError "Expecting value: line 1 column 1 (char 0)")).
  - vm_compute. reflexivity.
  - vm_compute. reflexivity.
  - reflexivity.
  - reflexivity.
  - reflexivity.
Defined.

(** X4.  When the request of a run was answered with status 200 and a JSON
    object whose [text] field is there but is no string ([null], a number, a
    list), [speech_to_text] returns [(None, msg)], where [msg] is the
    attribute error of [.strip()] on a value of that type. *)
Theorem text_not_a_string_gives_message env self opus_data session_id
    language_code tag_audio_events num_speakers timestamps_granularity diarize
    enable_logging w r w' req response d v :
  speech_to_text env self opus_data session_id language_code tag_audio_events
    num_speakers timestamps_granularity diarize enable_logging w = (r, w') →
  sent w' = (sent w ++ [req])%list →
  http env req = inr response →
  status_code response = 200 →
  json_body response = inr (JDict d) →
  dict_get d "text" = Some v →
  (∀ s, v ≠ JStr s) →
  r = inr (None,
           Some ("'" +:+ type_name v +:+ "' object has no attribute 'strip'")).
Proof.
  intros Hrun Hsent Hreply Hstatus Hjson Htext Hv.
  destruct (speech_to_text_answered env self _ _ _ _ _ _ _ _ _ _ _ _ _
              Hrun Hsent Hreply) as (w2 & w3 & Hread).
  rewrite (read_response_unreadable response w2 (no_attribute v "strip")
             Hstatus) in Hread.
  - by destruct Hread as [(o & [=] & _)|(e' & [= <- _] & ->)].
  - right. right. exists d, v. split_and!; [done| |done|done].
    by rewrite Htext.
Qed.

Lemma text_not_a_string_gives_message_witness :
  (run (quiet (inr null_text))).1
  = inr (None, Some "'NoneType' object has no attribute 'strip'").
Proof.
  apply (text_not_a_string_gives_message (quiet (inr null_text)) provider
           packets "s1" None true None "word" false true w0
           (run (quiet (inr null_text))).1 (run (quiet (inr null_text))).2
           (the_request provider the_path
              (wav_file 1 2 16000 (repeat x00 3840))
              (form_data provider None true None "word" false true))
           null_text [("text", JNone)] JNone).
  - vm_compute. reflexivity.
  - vm_compute. reflexivity.
  - reflexivity.
  - reflexivity.
  - reflexivity.
  - reflexivity.
  - intros s. discriminate.
Defined.

(** X3.  When the request of a run was answered with status 200 and a JSON
    value that is no object (a list, a string, [null]), [speech_to_text]
    returns [(None, msg)], where [msg] is the attribute error of [.get] on a
    value of that type. *)
Theorem body_not_an_object_gives_message env self opus_data session_id
    language_code tag_audio_events num_speakers timestamps_granularity diarize
    enable_logging w r w' req response v :
  speech_to_text env self opus_data session_id language_code tag_audio_events
    num_speakers timestamps_granularity diarize enable_logging w = (r, w') →
  sent w' = (sent w ++ [req])%list →
  http env req = inr response →
  status_code response = 200 →
  json_body response = inr v →
  (∀ d, v ≠ JDict d) →
  r = inr (None,
           Some ("'" +:+ type_name v +:+ "' object has no attribute 'get'")).
Proof.
  intros Hrun Hsent Hreply Hstatus Hjson Hv.
  destruct (speech_to_text_answered env self _ _ _ _ _ _ _ _ _ _ _ _ _
              Hrun Hsent Hreply) as (w2 & w3 & Hread).
  rewrite (read_response_unreadable response w2 (no_attribute v "get")
             Hstatus) in Hread.
  - by destruct Hread as [(o & [=] & _)|(e' & [= <- _] & ->)].
  - right. left. by exists v.
Qed.

Lemma body_not_an_object_gives_message_witness :
  (run (quiet (inr empty_list))).1
  = inr (None, Some "'list' object has no attribute 'get'").
Proof.
  apply (body_not_an_object_gives_message (quiet (inr empty_list)) provider
           packets "s1" None true None "word" false true w0
           (run (quiet (inr empty_list))).1 (run (quiet (inr empty_list))).2
           (the_request provider the_path
              (wav_file 1 2 16000 (repeat x00 3840))
              (form_data provider None true None "word" false true))
           empty_list (JList [])).
  - vm_compute. reflexivity.
  - vm_compute. reflexivity.
  - reflexivity.
  - reflexivity.
  - reflexivity.
  - intros d. discriminate.
Defined.

(** X5.  When the artifact is on storage at the existence check and
    [open] raises on it, [speech_to_text] returns [(None, str(e))] and hands
    nothing to the transport. *)
Theorem unreadable_artifact_gives_message env self opus_data session_id
    language_code tag_audio_events num_speakers timestamps_granularity diarize
    enable_logging w path w1 e :
  save_audio_to_file env self opus_data session_id w = (inr path, w1) →
  is_Some (others env (fs w1) !! path) →
  open_fault env path = Some e →
  ∃ w',
    speech_to_text env self opus_data session_id language_code
      tag_audio_events num_speakers timestamps_granularity diarize
      enable_logging w = (inr (None, Some (exn_str e)), w')
    ∧ sent w' = sent w.
Proof.
  intros Hsave Hthere Hopen.
  rewrite speech_to_text_blocks. unfold mbind at 1, M_bind at 1. rewrite Hsave.
  apply save_run in Hsave as [Hsent _].
  unfold mbind, M_bind, others_act, os_path_exists, modify, try_finally. simpl.
  rewrite bool_decide_eq_true_2 by done. simpl.
  destruct (attempt_open_refused env self path
              (form_data self language_code tag_audio_events num_speakers
                 timestamps_granularity diarize enable_logging)
              (set_fs (others env) w1) e Hopen) as (w3 & -> & Hsent3 & _).
  destruct (cleanup_run env path w3) as (w4 & -> & Hsent4 & _).
  exists w4. split; [done|]. by rewrite Hsent4, Hsent3.
Qed.

Lemma unreadable_artifact_gives_message_witness :
  ∃ w',
    run (unreadable (inr hello))
      = (inr (None, Some "[Errno 13] Permission denied"), w')
    ∧ sent w' = [].
Proof.
  apply (unreadable_artifact_gives_message (unreadable (inr hello)) provider
           packets "s1" None true None "word" false true w0 the_path
           (save_audio_to_file (unreadable (inr hello)) provider packets "s1"
              w0).2 permission_denied).
  - vm_compute. reflexivity.
  - vm_compute. eexists. reflexivity.
  - reflexivity.
Defined.

(** X6.  When other processes leave the artifact alone, the request of a
    run goes to the configured URL and its only file part, named [file], is
    read from the artifact path and holds the container of the decoded
    frames. *)
Theorem upload_is_the_container env self opus_data session_id language_code
    tag_audio_events num_speakers timestamps_granularity diarize
    enable_logging w r w' req :
  speech_to_text env self opus_data session_id language_code tag_audio_events
    num_speakers timestamps_granularity diarize enable_logging w = (r, w') →
  sent w' = (sent w ++ [req])%list →
  (∀ m, others env m !! artifact_path env self session_id w
        = m !! artifact_path env self session_id w) →
  req_url req = base_url self
  ∧ req_files req
    = [("file",
        FileObj (artifact_path env self session_id w)
          (wav_file 1 2 16000
             (concat (decoded (decode_results env (new_decoder env 16000 1)
                                 opus_data)))))].
Proof.
  intros Hrun Hsent Hquiet.
  destruct (speech_to_text_request env self _ _ _ _ _ _ _ _ _ _ _ _ Hrun Hsent)
    as (path & w1 & content & Hsave & Hfile & _ & -> & _).
  apply save_run in Hsave as [_ Hsave].
  destruct (Hsave path eq_refl) as (-> & _ & Hfs).
  rewrite Hquiet, Hfs, lookup_insert_eq in Hfile. injection Hfile as <-.
  done.
Qed.

Lemma upload_is_the_container_witness :
  req_url (the_request provider the_path
             (wav_file 1 2 16000 (repeat x00 3840))
             (form_data provider None true None "word" false true))
  = base_url provider
  ∧ req_files (the_request provider the_path
                 (wav_file 1 2 16000 (repeat x00 3840))
                 (form_data provider None true None "word" false true))
    = [("file",
        FileObj (artifact_path (quiet (inr hello)) provider "s1" w0)
          (wav_file 1 2 16000
             (concat (decoded (decode_results (quiet (inr hello)) O
                                 packets)))))].
Proof.
  apply (upload_is_the_container (quiet (inr hello)) provider packets "s1"
           None true None "word" false true w0
           (run (quiet (inr hello))).1 (run (quiet (inr hello))).2).
  - vm_compute. reflexivity.
  - vm_compute. reflexivity.
  - intros m. reflexivity.
Defined.

(** X7.  A call of [speech_to_text] hands at most one request to the
    transport, and leaves the earlier ones in place: nothing is retried. *)
Theorem at_most_one_request env self opus_data session_id language_code
    tag_audio_events num_speakers timestamps_granularity diarize
    enable_logging w :
  ∃ new,
    sent (speech_to_text env self opus_data session_id language_code
            tag_audio_events num_speakers timestamps_granularity diarize
            enable_logging w).2 = (sent w ++ new)%list
    ∧ (length new ≤ 1)%nat.
Proof.
  destruct (speech_to_text env self opus_data session_id language_code
              tag_audio_events num_speakers timestamps_granularity diarize
              enable_logging w) as [r w'] eqn:Hrun.
  apply speech_to_text_sent in Hrun as [Hsent|(path & content & Hsent)]; simpl.
  - exists []. split; [by rewrite app_nil_r | simpl; lia].
  - eexists [_]. split; [exact Hsent | simpl; lia].
Qed.

Lemma form_bool_lower b : lower (str_of_bool b) = form_bool b.
Proof. by destruct b. Qed.

Lemma form_data_shape self language_code tag_audio_events num_speakers
    timestamps_granularity diarize enable_logging :
  let data := form_data self language_code tag_audio_events num_speakers
                timestamps_granularity diarize enable_logging in
  dict_keys data = form_keys language_code num_speakers
  ∧ dict_get data "model_id" = Some (model_id self)
  ∧ dict_get data "enable_logging" = Some (form_bool enable_logging)
  ∧ dict_get data "tag_audio_events" = Some (form_bool tag_audio_events)
  ∧ dict_get data "timestamps_granularity" = Some timestamps_granularity
  ∧ dict_get data "diarize" = Some (form_bool diarize)
  ∧ dict_get data "file_format" = Some "pcm_s16le_16".
Proof.
  unfold form_data, form_keys. rewrite !form_bool_lower.
  destruct language_code as [lc|], num_speakers as [n|]; simpl;
    repeat (case_match; simpl); done.
Qed.

(** X8.  The form of the request of a run has the six fields [model_id],
    [enable_logging], [tag_audio_events], [timestamps_granularity],
    [diarize], [file_format], then [language_code] and [num_speakers] when
    truthy, in this order and no other; the three flags are the strings
    [true] or [false] and [file_format] is [pcm_s16le_16]. *)
Theorem form_fields_of_request env self opus_data session_id language_code
    tag_audio_events num_speakers timestamps_granularity diarize
    enable_logging w r w' req :
  speech_to_text env self opus_data session_id language_code tag_audio_events
    num_speakers timestamps_granularity diarize enable_logging w = (r, w') →
  sent w' = (sent w ++ [req])%list →
  dict_keys (req_data req) = form_keys language_code num_speakers
  ∧ dict_get (req_data req) "model_id" = Some (model_id self)
  ∧ dict_get (req_data req) "enable_logging" = Some (form_bool enable_logging)
  ∧ dict_get (req_data req) "tag_audio_events"
    = Some (form_bool tag_audio_events)
  ∧ dict_get (req_data req) "timestamps_granularity"
    = Some timestamps_granularity
  ∧ dict_get (req_data req) "diarize" = Some (form_bool diarize)
  ∧ dict_get (req_data req) "file_format" = Some "pcm_s16le_16".
Proof.
  intros Hrun Hsent.
  destruct (speech_to_text_request env self _ _ _ _ _ _ _ _ _ _ _ _ Hrun Hsent)
    as (path & w1 & content & _ & _ & _ & -> & _).
  apply form_data_shape.
Qed.

Lemma form_fields_of_request_witness :
  dict_keys (form_data provider (Some "en") false (Some 2) "character" true
               false)
  = ["model_id"; "enable_logging"; "tag_audio_events";
     "timestamps_granularity"; "diarize"; "file_format"; "language_code";
     "num_speakers"]
  ∧ dict_get (form_data provider (Some "en") false (Some 2) "character" true
                false) "model_id" = Some "scribe_v1"
  ∧ dict_get (form_data provider (Some "en") false (Some 2) "character" true
                false) "enable_logging" = Some "false"
  ∧ dict_get (form_data provider (Some "en") false (Some 2) "character" true
                false) "tag_audio_events" = Some "false"
  ∧ dict_get (form_data provider (Some "en") false (Some 2) "character" true
                false) "timestamps_granularity" = Some "character"
  ∧ dict_get (form_data provider (Some "en") false (Some 2) "character" true
                false) "diarize" = Some "true"
  ∧ dict_get (form_data provider (Some "en") false (Some 2) "character" true
                false) "file_format" = Some "pcm_s16le_16".
Proof.
  apply (form_fields_of_request (quiet (inr hello)) provider packets "s1"
           (Some "en") false (Some 2) "character" true false w0
           (inr (Some "hello world", None))
           (speech_to_text (quiet (inr hello)) provider packets "s1"
              (Some "en") false (Some 2) "character" true false w0).2
           (the_request provider the_path
              (wav_file 1 2 16000 (repeat x00 3840))
              (form_data provider (Some "en") false (Some 2) "character" true
                 false))).
  - vm_compute. reflexivity.
  - vm_compute. reflexivity.
Defined.

(** X9.  When [speech_to_text] returns and [os.remove] is not refused on
    the artifact path, storage is what other processes made of the storage
    with the container written, less the artifact path: whatever was at that
    path before the call is gone as well. *)
Theorem storage_after_return env self opus_data session_id language_code
    tag_audio_events num_speakers timestamps_granularity diarize
    enable_logging w o w' :
  speech_to_text env self opus_data session_id language_code tag_audio_events
    num_speakers timestamps_granularity diarize enable_logging w
    = (inr o, w') →
  remove_fault env (artifact_path env self session_id w) = None →
  fs w'
  = delete (artifact_path env self session_id w)
      (others env
         (<[artifact_path env self session_id w :=
              wav_file 1 2 16000
                (concat (decoded (decode_results env (new_decoder env 16000 1)
                                    opus_data)))]> (fs w))).
Proof.
  intros Hrun Hfault.
  apply speech_to_text_run in Hrun
    as [(e & _ & [=])|(path & w1 & Hsave & Hrest)].
  apply save_run in Hsave as [_ Hsave].
  destruct (Hsave path eq_refl) as (-> & _ & Hfs).
  set (path := artifact_path env self session_id w) in *.
  destruct Hrest as [(Habsent & _ & Hfs' & _)|(_ & o' & w3 & Hatt & Hclean & _)].
  - rewrite Hfs'. simpl in Habsent. rewrite <- Hfs. by rewrite delete_id.
  - destruct (attempt_run env self path
                (form_data self language_code tag_audio_events num_speakers
                   timestamps_granularity diarize enable_logging)
                (set_fs (others env) w1)) as (o'' & w3' & Hatt' & Hfs3 & _).
    rewrite Hatt in Hatt'. injection Hatt' as <- <-.
    destruct (cleanup_removes env path w3 Hfault) as (w4 & Hclean' & Hfs4 & _).
    rewrite Hclean in Hclean'. injection Hclean' as <-.
    rewrite Hfs4, Hfs3. simpl. by rewrite Hfs.
Qed.

Lemma storage_after_return_witness :
  fs (run (quiet (inr rate_limited))).2
  = delete (artifact_path (quiet (inr rate_limited)) provider "s1" w0)
      (others (quiet (inr rate_limited))
         (<[artifact_path (quiet (inr rate_limited)) provider "s1" w0 :=
              wav_file 1 2 16000
                (concat (decoded (decode_results (quiet (inr rate_limited)) O
                                    packets)))]> (fs w0))).
Proof.
  apply (storage_after_return (quiet (inr rate_limited)) provider packets "s1"
           None true None "word" false true w0 (None, Some "rate limited")).
  - vm_compute. reflexivity.
  - reflexivity.
Defined.

Lemma save_footprint env self opus_data session_id w r w1 :
  save_audio_to_file env self opus_data session_id w = (r, w1) →
  sent w1 = sent w
  ∧ entropy w1 = S (entropy w)
  ∧ ∀ other,
      other ≠ artifact_path env self session_id w →
      fs w1 !! other = fs w !! other.
Proof.
  unfold save_audio_to_file, mbind, M_bind, uuid4.
  destruct (decode_loop _ _ _ _ _) as [[e|pcm_data] w2] eqn:Hloop;
    apply decode_loop_run in Hloop as (Hfs & Hsent & Hent & _); simpl in *.
  { intros [= <- <-]. split_and!; [done..|]. intros other _. by rewrite Hfs. }
  fold (artifact_path env self session_id w).
  unfold wave_write, modify, mbind, M_bind, mret, M_ret, raise.
  destruct (wave_fault env _ _) as [[e [partial|]]|]; simpl;
    intros [= <- <-]; (split_and!; [done..|]); intros other Hother; simpl;
    rewrite ?Hfs; by rewrite ?lookup_insert_ne.
Qed.

(** X10.  [save_audio_to_file], whether it returns or raises, hands nothing
    to the transport and leaves every path other than the artifact path as
    it was. *)
Theorem save_touches_only_the_artifact env self opus_data session_id w r w1 :
  save_audio_to_file env self opus_data session_id w = (r, w1) →
  sent w1 = sent w
  ∧ ∀ other,
      other ≠ artifact_path env self session_id w →
      fs w1 !! other = fs w !! other.
Proof.
  intros Hsave. apply save_footprint in Hsave as (Hsent & _ & Hfs). by split.
Qed.

Lemma save_touches_only_the_artifact_witness :
  sent (save_audio_to_file (torn (inr hello)) provider packets "s1" w0).2
  = sent w0
  ∧ ∀ other,
      other ≠ artifact_path (torn (inr hello)) provider "s1" w0 →
      fs (save_audio_to_file (torn (inr hello)) provider packets "s1" w0).2
        !! other
      = fs w0 !! other.
Proof.
  apply (save_touches_only_the_artifact (torn (inr hello)) provider packets
           "s1" w0 (inl no_space)).
  vm_compute. reflexivity.
Defined.

(** X11.  When [save_audio_to_file] returns, what it has logged is one
    error line for each packet that did not decode, in packet order, with
    the message of its exception; and each packet either is logged or gives
    a frame. *)
Theorem one_error_line_per_corrupt_packet env self opus_data session_id w
    path w1 :
  save_audio_to_file env self opus_data session_id w = (inr path, w1) →
  logs w1
  = (logs w
     ++ map opus_error_line
          (failures (decode_results env (new_decoder env 16000 1) opus_data)))%list
  ∧ (length (failures (decode_results env (new_decoder env 16000 1) opus_data))
     + successes (decode_results env (new_decoder env 16000 1) opus_data)
     = length opus_data)%nat.
Proof.
  intros Hsave. split.
  - revert Hsave. unfold save_audio_to_file, mbind, M_bind, uuid4.
    destruct (decode_loop _ _ _ _ _) as [[e|pcm_data] w2] eqn:Hloop; [done|].
    apply decode_loop_logs in Hloop. simpl in Hloop.
    unfold wave_write, modify, mbind, M_bind, mret, M_ret, raise.
    destruct (wave_fault env _ _) as [[e [partial|]]|]; simpl; [done..|].
    by intros [= _ <-].
  - rewrite <- (decode_results_length env (new_decoder env 16000 1) opus_data).
    unfold failures, successes.
    induction (decode_results env (new_decoder env 16000 1) opus_data)
      as [|[e|frame] rs IH]; simpl; unfold omap in *; lia.
Qed.

Lemma one_error_line_per_corrupt_packet_witness :
  logs (save_audio_to_file (quiet (inr hello)) provider packets "s1" w0).2
  = (logs w0
     ++ map opus_error_line
          (failures (decode_results (quiet (inr hello)) O packets)))%list
  ∧ (length (failures (decode_results (quiet (inr hello)) O packets))
     + successes (decode_results (quiet (inr hello)) O packets)
     = length packets)%nat.
Proof.
  apply (one_error_line_per_corrupt_packet (quiet (inr hello)) provider packets
           "s1" w0 the_path
           (save_audio_to_file (quiet (inr hello)) provider packets "s1" w0).2).
  vm_compute. reflexivity.
Defined.

(** X12.  When [save_audio_to_file] returns (and the frames fit the 32-bit
    length field), the file at the returned path reads back as a RIFF/WAVE
    file of format PCM with 1 channel, 16000 frames per second, 32000 bytes
    per second, 2 bytes per frame and 16 bits per sample; its length fields
    count the bytes of the frames, which follow the 44 header bytes
    unchanged. *)
Theorem container_declares_format env self opus_data session_id w path w1 :
  save_audio_to_file env self opus_data session_id w = (inr path, w1) →
  Z.of_nat (length (concat (decoded (decode_results env
                                       (new_decoder env 16000 1) opus_data))))
    < 2 ^ 32 - 36 →
  ∃ file,
    fs w1 !! path = Some file
    ∧ take 4 file = list_byte_of_string "RIFF"
    ∧ field 4 4 file
      = 36 + Z.of_nat (length (concat (decoded (decode_results env
                                  (new_decoder env 16000 1) opus_data))))
    ∧ take 4 (drop 8 file) = list_byte_of_string "WAVE"
    ∧ field 20 2 file = 1
    ∧ field 22 2 file = 1
    ∧ field 24 4 file = 16000
    ∧ field 28 4 file = 32000
    ∧ field 32 2 file = 2
    ∧ field 34 2 file = 16
    ∧ field 40 4 file
      = Z.of_nat (length (concat (decoded (decode_results env
                             (new_decoder env 16000 1) opus_data))))
    ∧ drop 44 file
      = concat (decoded (decode_results env (new_decoder env 16000 1)
                           opus_data)).
Proof.
  intros Hsave Hlen.
  apply save_run in Hsave as [_ Hsave].
  destruct (Hsave path eq_refl) as (_ & _ & Hfs).
  eexists. split; [rewrite Hfs; apply lookup_insert_eq|].
  by apply wav_file_fields.
Qed.

Lemma container_declares_format_witness :
  ∃ file,
    fs (save_audio_to_file (quiet (inr hello)) provider packets "s1" w0).2
      !! the_path = Some file
    ∧ take 4 file = list_byte_of_string "RIFF"
    ∧ field 4 4 file
      = 36 + Z.of_nat (length (concat (decoded (decode_results
                                  (quiet (inr hello)) O packets))))
    ∧ take 4 (drop 8 file) = list_byte_of_string "WAVE"
    ∧ field 20 2 file = 1
    ∧ field 22 2 file = 1
    ∧ field 24 4 file = 16000
    ∧ field 28 4 file = 32000
    ∧ field 32 2 file = 2
    ∧ field 34 2 file = 16
    ∧ field 40 4 file
      = Z.of_nat (length (concat (decoded (decode_results
                             (quiet (inr hello)) O packets))))
    ∧ drop 44 file
      = concat (decoded (decode_results (quiet (inr hello)) O packets)).
Proof.
  apply (container_declares_format (quiet (inr hello)) provider packets "s1"
           w0 the_path
           (save_audio_to_file (quiet (inr hello)) provider packets "s1" w0).2).
  - vm_compute. reflexivity.
  - vm_compute. reflexivity.
Defined.

(** X13.  For an empty packet list, when [wave] and [open] work and the
    file is left alone, [speech_to_text] sends a request all the same: the
    file part is a container of 44 header bytes and no frame. *)
Theorem empty_input_is_still_sent env self session_id language_code
    tag_audio_events num_speakers timestamps_granularity diarize
    enable_logging w :
  wave_fault env (artifact_path env self session_id w) [] = None →
  others env (<[artifact_path env self session_id w :=
                  wav_header 1 2 16000 0]> (fs w))
    !! artifact_path env self session_id w = Some (wav_header 1 2 16000 0) →
  open_fault env (artifact_path env self session_id w) = None →
  ∃ r w',
    speech_to_text env self [] session_id language_code tag_audio_events
      num_speakers timestamps_granularity diarize enable_logging w = (r, w')
    ∧ sent w'
      = (sent w
         ++ [the_request self (artifact_path env self session_id w)
               (wav_header 1 2 16000 0)
               (form_data self language_code tag_audio_events num_speakers
                  timestamps_granularity diarize enable_logging)])%list
    ∧ length (wav_header 1 2 16000 0) = 44%nat
    ∧ field 40 4 (wav_header 1 2 16000 0) = 0.
Proof.
  intros Hwave Hkept Hopen.
  set (path := artifact_path env self session_id w) in *.
  set (data := form_data self language_code tag_audio_events num_speakers
                 timestamps_granularity diarize enable_logging).
  destruct (save_returns env self [] session_id w) as [w1 Hsave];
    [constructor | exact Hwave |].
  fold path in Hsave.
  destruct (speech_to_text env self [] session_id language_code
              tag_audio_events num_speakers timestamps_granularity diarize
              enable_logging w) as [r w'] eqn:Hrun.
  exists r, w'. split; [done|]. split; [|by split].
  pose proof Hsave as Hsave'. apply save_run in Hsave' as [Hsent1 Hsaved].
  destruct (Hsaved path eq_refl) as (_ & _ & Hfs). simpl in Hfs.
  change (wav_file 1 2 16000 []) with (wav_header 1 2 16000 0) in Hfs.
  apply speech_to_text_run in Hrun
    as [(e & Hsave' & _)|(path' & w1' & Hsave' & Hrest)]; [congruence|].
  rewrite Hsave in Hsave'. injection Hsave' as <- <-.
  destruct Hrest as [(Habsent & _)|(_ & o & w3 & Hatt & Hclean & _)].
  { simpl in Habsent. rewrite Hfs, Hkept in Habsent. done. }
  destruct (cleanup_run env path w3) as (w4 & Hclean' & Hsent4 & _).
  rewrite Hclean in Hclean'. injection Hclean' as <-. rewrite Hsent4.
  revert Hatt.
  unfold attempt, try_except, open_rb, requests_post, logger, modify,
    mbind, M_bind, mret, M_ret.
  rewrite Hopen. simpl. rewrite Hfs, Hkept.
  fold (the_request self path (wav_header 1 2 16000 0) data).
  destruct (http env _) as [e|response].
  - intros [= _ <-]. simpl. by rewrite Hsent1.
  - destruct (read_response response _) as [[e|o'] w5] eqn:Hread;
      apply read_response_run in Hread as (_ & Hs & _);
      intros [= _ <-]; simpl in *; by rewrite ?Hs, Hsent1.
Qed.

Lemma empty_input_is_still_sent_witness :
  ∃ r w',
    speech_to_text (quiet (inr hello)) provider [] "s1" None true None "word"
      false true w0 = (r, w')
    ∧ sent w'
      = (sent w0
         ++ [the_request provider
               (artifact_path (quiet (inr hello)) provider "s1" w0)
               (wav_header 1 2 16000 0)
               (form_data provider None true None "word" false true)])%list
    ∧ length (wav_header 1 2 16000 0) = 44%nat
    ∧ field 40 4 (wav_header 1 2 16000 0) = 0.
Proof.
  apply (empty_input_is_still_sent (quiet (inr hello)) provider "s1" None true
           None "word" false true w0).
  - reflexivity.
  - vm_compute. reflexivity.
  - reflexivity.
Defined.

(** X14.  When [wave] fails after it has created the file, [speech_to_text]
    raises that exception, hands nothing to the transport, and what [wave]
    left at the artifact path stays on storage: the cleanup is not reached. *)
Theorem torn_write_is_left_behind env self opus_data session_id language_code
    tag_audio_events num_speakers timestamps_granularity diarize
    enable_logging w e partial :
  opus_clean (decode_results env (new_decoder env 16000 1) opus_data) →
  wave_fault env (artifact_path env self session_id w)
    (concat (decoded (decode_results env (new_decoder env 16000 1) opus_data)))
  = Some (e, Some partial) →
  ∃ w',
    speech_to_text env self opus_data session_id language_code
      tag_audio_events num_speakers timestamps_granularity diarize
      enable_logging w = (inl e, w')
    ∧ fs w' !! artifact_path env self session_id w = Some partial
    ∧ sent w' = sent w.
Proof.
  intros Hclean Hwave.
  rewrite speech_to_text_blocks.
  unfold mbind at 1, M_bind at 1.
  unfold save_audio_to_file, mbind, M_bind, uuid4.
  edestruct (decode_loop_clean env (new_decoder env 16000 1) opus_data [])
    as [w2 Hloop]; [exact Hclean|]. rewrite Hloop.
  apply decode_loop_run in Hloop as (Hfs & Hsent & _).
  simpl. fold (artifact_path env self session_id w).
  unfold wave_write, modify, mbind, M_bind, raise. rewrite Hwave. simpl.
  eexists. split_and!; [reflexivity| |done].
  simpl. apply lookup_insert_eq.
Qed.

Lemma torn_write_is_left_behind_witness :
  ∃ w',
    run (torn (inr hello)) = (inl no_space, w')
    ∧ fs w' !! artifact_path (torn (inr hello)) provider "s1" w0
      = Some (list_byte_of_string "RIFF")
    ∧ sent w' = sent w0.
Proof.
  apply (torn_write_is_left_behind (torn (inr hello)) provider packets "s1"
           None true None "word" false true w0 no_space
           (list_byte_of_string "RIFF")).
  - repeat constructor; intros e [= <-]; reflexivity.
  - reflexivity.
Defined.

Lemma speech_to_text_entropy env self opus_data session_id language_code
    tag_audio_events num_speakers timestamps_granularity diarize
    enable_logging w r w' :
  speech_to_text env self opus_data session_id language_code tag_audio_events
    num_speakers timestamps_granularity diarize enable_logging w = (r, w') →
  entropy w' = S (entropy w).
Proof.
  rewrite speech_to_text_blocks. unfold mbind at 1, M_bind at 1.
  destruct (save_audio_to_file env self opus_data session_id w)
    as [[e|path] w1] eqn:Hsave;
    apply save_footprint in Hsave as (_ & Hent & _).
  { by intros [= _ <-]. }
  unfold mbind, M_bind, others_act, os_path_exists, modify, try_finally,
    logger, modify, mret, M_ret.
  case_bool_decide; simpl.
  - destruct (attempt env self path _ _) as [r3 w3] eqn:Hatt.
    apply attempt_entropy in Hatt.
    destruct (cleanup env path w3) as [[e|[]] w4] eqn:Hclean;
      apply cleanup_entropy in Hclean; intros [= _ <-]; simpl in *; congruence.
  - by intros [= _ <-].
Qed.

(** X15.  When the uuid source never repeats, a call of [speech_to_text]
    leaves the world such that the next call in the same session builds a
    different artifact path. *)
Theorem consecutive_runs_use_different_paths env self opus_data session_id
    language_code tag_audio_events num_speakers timestamps_granularity diarize
    enable_logging w r w' :
  never_repeats env →
  speech_to_text env self opus_data session_id language_code tag_audio_events
    num_speakers timestamps_granularity diarize enable_logging w = (r, w') →
  artifact_path env self session_id w' ≠ artifact_path env self session_id w.
Proof.
  intros Hfresh Hrun Hsame.
  apply speech_to_text_entropy in Hrun.
  apply artifact_path_inj, Hfresh in Hsame. lia.
Qed.

Lemma consecutive_runs_use_different_paths_witness :
  artifact_path (quiet (inr hello)) provider "s1" (run (quiet (inr hello))).2
  ≠ artifact_path (quiet (inr hello)) provider "s1" w0.
Proof.
  apply (consecutive_runs_use_different_paths (quiet (inr hello)) provider
           packets "s1" None true None "word" false true w0
           (run (quiet (inr hello))).1).
  - intros m n Hmn. apply (append_cancel_l "uuid") in Hmn.
    by apply (inj pretty) in Hmn.
  - vm_compute. reflexivity.
Defined.

(** ** Construction *)

Import Construction.

(** X16.  When the configuration has no [api_key], or a falsy one ([None],
    the empty string), [__init__] raises [ValueError] before it looks at
    the directory: no [mkdir] is made, whatever else the configuration
    holds. *)
Theorem init_refuses_falsy_key ienv config delete_audio_file made :
  truthy ienv (config_get config "api_key") = false →
  ASRProvider_init ienv config delete_audio_file made = (inl no_api_key, made).
Proof. intros Hkey. unfold ASRProvider_init. by rewrite Hkey. Qed.

Lemma init_refuses_falsy_key_witness :
  ASRProvider_init plain blank_key true [] = (inl no_api_key, []).
Proof. apply (init_refuses_falsy_key plain blank_key true []). reflexivity. Defined.

(** X18.  A provider that [__init__] has built from string settings has the
    configured, non-empty API key; [mkdir] was called on its directory; and
    every request its [speech_to_text] hands to the transport carries that
    key in the [xi-api-key] header. *)
Theorem init_key_reaches_the_header ienv config delete_audio_file made a made'
    self env opus_data session_id language_code tag_audio_events num_speakers
    timestamps_granularity diarize enable_logging w :
  ASRProvider_init ienv config delete_audio_file made = (inr a, made') →
  as_provider a = Some self →
  dict_get config "api_key" = Some (JStr (api_key self))
  ∧ api_key self ≠ ""
  ∧ made' = (made ++ [output_dir self])%list
  ∧ ∃ new,
      sent (speech_to_text env self opus_data session_id language_code
              tag_audio_events num_speakers timestamps_granularity diarize
              enable_logging w).2 = (sent w ++ new)%list
      ∧ Forall (λ req, dict_get (req_headers req) "xi-api-key"
                       = Some (api_key self)) new.
Proof.
  unfold ASRProvider_init, as_provider, config_get.
  destruct (truthy ienv _) eqn:Hkey; [simpl|done].
  destruct (path_of ienv _) as [e|dir]; [done|].
  destruct (mkdir_fault ienv dir) as [e|]; [done|].
  intros [= <- <-]. simpl.
  destruct (dict_get config "api_key") as [[| | | |k| |]|] eqn:Hget;
    simpl in *; try done.
  destruct (config_get_default config "model_id" _); try done.
  destruct (config_get_default config "stt_base_url" _); try done.
  intros [= <-]. simpl. split_and!; [done| |done|].
  - intros ->. done.
  - destruct (speech_to_text env _ opus_data session_id language_code
                tag_audio_events num_speakers timestamps_granularity diarize
                enable_logging w) as [r w'] eqn:Hrun.
    apply speech_to_text_sent in Hrun as [Hsent|(path & content & Hsent)];
      simpl.
    + exists []. by rewrite app_nil_r.
    + eexists [_]. split; [exact Hsent|]. by constructor.
Qed.

(** X17.  With a truthy [api_key] and none of [model_id], [stt_base_url],
    [temp_directory] in the configuration, [__init__] sets the model to
    [scribe_v1], the URL to the ElevenLabs speech-to-text endpoint and the
    directory to [temp/audio], on which it calls [mkdir] once. *)
Theorem init_defaults ienv config delete_audio_file made dir :
  truthy ienv (config_get config "api_key") = true →
  dict_get config "model_id" = None →
  dict_get config "stt_base_url" = None →
  dict_get config "temp_directory" = None →
  path_of ienv (JStr "temp/audio") = inr dir →
  mkdir_fault ienv dir = None →
  ASRProvider_init ienv config delete_audio_file made
  = (inr (MkAttributes (config_get config "api_key") (JStr "scribe_v1")
            (JStr "https://api.elevenlabs.io/v1/speech-to-text") dir),
     (made ++ [dir])%list).
Proof.
  intros Hkey Hmodel Hurl Hdir Hpath Hmk.
  unfold ASRProvider_init, config_get_default.
  rewrite Hkey, Hmodel, Hurl, Hdir. simpl. by rewrite Hpath, Hmk.
Qed.

Lemma init_key_reaches_the_header_witness :
  dict_get only_key "api_key" = Some (JStr (api_key provider))
  ∧ api_key provider ≠ ""
  ∧ ["temp/audio"] = ([] ++ [output_dir provider])%list
  ∧ ∃ new,
      sent (run (quiet (inr hello))).2 = (sent w0 ++ new)%list
      ∧ Forall (λ req, dict_get (req_headers req) "xi-api-key"
                       = Some (api_key provider)) new.
Proof.
  apply (init_key_reaches_the_header plain only_key true []
           (MkAttributes (JStr "sk-key") (JStr "scribe_v1")
              (JStr "https://api.elevenlabs.io/v1/speech-to-text")
              "temp/audio")
           ["temp/audio"] provider (quiet (inr hello)) packets "s1" None true
           None "word" false true w0).
  - reflexivity.
  - reflexivity.
Defined.

Lemma init_defaults_witness :
  ASRProvider_init plain only_key true []
  = (inr (MkAttributes (config_get only_key "api_key") (JStr "scribe_v1")
            (JStr "https://api.elevenlabs.io/v1/speech-to-text")
            "temp/audio"),
     ([] ++ ["temp/audio"])%list).
Proof.
  apply (init_defaults plain only_key true [] "temp/audio"); reflexivity.
Defined.

(** ** The intent cache *)

Section CacheFacts.
Context {time : Type} (expired : time → time → Z → bool)
  (older : time → time → bool).

Local Abbreviation entry := (string * cache_entry time)%type.

Lemma elem_of_List_filter {A} (f : A → bool) (l : list A) x :
  x ∈ List.filter f l ↔ x ∈ l ∧ f x = true.
Proof. rewrite !list_elem_of_In. apply filter_In. Qed.

Lemma List_filter_sublist {A} (f : A → bool) (l : list A) :
  List.filter f l `sublist_of` l.
Proof.
  induction l as [|x l IH]; simpl; [constructor|].
  destruct (f x); by constructor.
Qed.

Lemma elem_of_dict_del {V} (d : dict V) key kv :
  kv ∈ dict_del d key ↔ kv ∈ d ∧ kv.1 ≠ key.
Proof.
  unfold dict_del. rewrite elem_of_List_filter.
  split; intros [Hin Hkey]; (split; [done|]).
  - intros Heq. apply String.eqb_eq in Heq. by rewrite Heq in Hkey.
  - apply negb_true_iff. by apply String.eqb_neq.
Qed.

Lemma elem_of_dict_del_all {V} (d : dict V) keys kv :
  kv ∈ dict_del_all d keys ↔ kv ∈ d ∧ kv.1 ∉ keys.
Proof.
  unfold dict_del_all. revert d.
  induction keys as [|key keys IH]; intros d; simpl.
  - split; [intros H; split; [done|] | by intros [H _]].
    by intros ?%elem_of_nil.
  - rewrite IH, elem_of_dict_del, not_elem_of_cons. tauto.
Qed.

Lemma dict_del_all_sublist {V} (d : dict V) keys :
  dict_del_all d keys `sublist_of` d.
Proof.
  unfold dict_del_all. revert d.
  induction keys as [|key keys IH]; intros d; simpl; [done|].
  etrans; [apply IH|]. apply List_filter_sublist.
Qed.

Lemma dict_del_all_nil {V} (d : dict V) : dict_del_all d [] = d.
Proof. reflexivity. Qed.

Lemma insert_by_timestamp_perm (x : entry) l :
  insert_by_timestamp older x l ≡ₚ x :: l.
Proof.
  induction l as [|y l IH]; simpl; [done|].
  destruct (older _ _); [|done]. rewrite IH. apply Permutation_swap.
Qed.

Lemma sorted_by_timestamp_perm (l : list entry) :
  sorted_by_timestamp older l ≡ₚ l.
Proof.
  induction l as [|x l IH]; simpl; [done|].
  by rewrite insert_by_timestamp_perm, IH.
Qed.

Lemma key_determines_entry {V} (d : dict V) kv kv' :
  NoDup (dict_keys d) → kv ∈ d → kv' ∈ d → kv.1 = kv'.1 → kv = kv'.
Proof.
  unfold dict_keys. change (map fst d) with (fst <$> d).
  induction d as [|x d IH]; [by intros _ ?%elem_of_nil|].
  rewrite fmap_cons, NoDup_cons.
  intros [Hx Hd] [->|Hkv]%elem_of_cons [->|Hkv']%elem_of_cons Hfst.
  - done.
  - destruct Hx. rewrite Hfst. by apply list_elem_of_fmap_2.
  - destruct Hx. rewrite <- Hfst. by apply list_elem_of_fmap_2.
  - by apply IH.
Qed.

Lemma dict_del_all_filter {V} (d : dict V) keys :
  dict_del_all d keys
  = List.filter (λ kv, negb (existsb (String.eqb kv.1) keys)) d.
Proof.
  unfold dict_del_all. revert d.
  induction keys as [|key keys IH]; intros d; simpl.
  - induction d as [|kv d IHd]; simpl; [done | by f_equal].
  - rewrite IH. unfold dict_del.
    induction d as [|kv d IHd]; simpl; [done|].
    destruct (String.eqb kv.1 key); simpl; [exact IHd|].
    destruct (existsb (String.eqb kv.1) keys); simpl; [exact IHd | by f_equal].
Qed.

Lemma existsb_key (keys : list string) k :
  existsb (String.eqb k) keys = true ↔ k ∈ keys.
Proof.
  rewrite existsb_exists, list_elem_of_In. split.
  - by intros (k' & Hin & ->%String.eqb_eq).
  - intros Hin. exists k. split; [done | apply String.eqb_refl].
Qed.

Lemma List_filter_ext_elem {A} (f g : A → bool) (l : list A) :
  (∀ x, x ∈ l → f x = g x) → List.filter f l = List.filter g l.
Proof.
  induction l as [|x l IH]; intros Hfg; simpl; [done|].
  rewrite (Hfg x) by left. rewrite IH; [done|].
  intros y Hy. apply Hfg. by right.
Qed.

(** The cache once the expired keys are deleted. *)
Lemma unexpired_kept now (self : IntentProvider time) :
  NoDup (dict_keys (intent_cache self)) →
  dict_del_all (intent_cache self)
    (map fst (List.filter
                (λ kv, expired now (timestamp kv.2) (cache_expiry self))
                (intent_cache self)))
  = List.filter (λ kv, negb (expired now (timestamp kv.2) (cache_expiry self)))
      (intent_cache self).
Proof.
  intros Hkeys. rewrite dict_del_all_filter.
  apply List_filter_ext_elem. intros kv Hkv. f_equal.
  apply eq_true_iff_eq. rewrite existsb_key.
  change (map fst ?l) with (fst <$> l). rewrite list_elem_of_fmap. split.
  - intros (kv' & Hfst & [Hkv' Hf]%elem_of_List_filter).
    assert (kv = kv') as ->; [|done].
    by apply (key_determines_entry (intent_cache self)).
  - intros Hf. exists kv. split; [done|]. by apply elem_of_List_filter.
Qed.

Lemma NoDup_keys_entries {V} (d : dict V) : NoDup (dict_keys d) → NoDup d.
Proof. unfold dict_keys. change (map fst d) with (fst <$> d). apply NoDup_fmap_1. Qed.

Lemma NoDup_keys_sublist {V} (d d' : dict V) :
  d' `sublist_of` d → NoDup (dict_keys d) → NoDup (dict_keys d').
Proof.
  unfold dict_keys. change (map fst ?l) with (fst <$> l).
  intros Hsub Hd. eapply sublist_NoDup; [exact Hd|]. by apply fmap_sublist.
Qed.

Lemma NoDup_keys_perm {V} (d d' : dict V) :
  d' ≡ₚ d → NoDup (dict_keys d) → NoDup (dict_keys d').
Proof.
  unfold dict_keys. change (map fst ?l) with (fst <$> l).
  intros Hperm. by rewrite Hperm.
Qed.

(** Deleting the keys of the first [n] sorted items leaves the other items. *)
Lemma evict_perm (c : dict (cache_entry time)) n :
  NoDup (dict_keys c) →
  dict_del_all c (map fst (take n (sorted_by_timestamp older c)))
  ≡ₚ drop n (sorted_by_timestamp older c).
Proof.
  intros Hkeys.
  set (s := sorted_by_timestamp older c).
  assert (s ≡ₚ c) as Hperm by apply sorted_by_timestamp_perm.
  assert (NoDup (dict_keys s)) as Hkeys_s by by eapply NoDup_keys_perm.
  assert (NoDup s) as Hs by by apply NoDup_keys_entries.
  apply NoDup_Permutation.
  - eapply sublist_NoDup; [|apply dict_del_all_sublist].
    by apply NoDup_keys_entries.
  - eapply sublist_NoDup; [exact Hs | apply sublist_drop].
  - intros kv. rewrite elem_of_dict_del_all.
    change (map fst ?l) with (fst <$> l). rewrite <- Hperm.
    rewrite <- (take_drop n s) in Hs. apply NoDup_app in Hs as (_ & Hdisj & _).
    split.
    + intros [Hin Hkey]. rewrite <- (take_drop n s) in Hin.
      apply elem_of_app in Hin as [Hin|Hin]; [|done].
      destruct Hkey. by apply list_elem_of_fmap_2.
    + intros Hin. split.
      * rewrite <- (take_drop n s). apply elem_of_app. by right.
      * intros (kv' & Hfst & Hin')%list_elem_of_fmap.
        assert (kv = kv') as <-.
        { apply (key_determines_entry s); [done| |..|done].
          - rewrite <- (take_drop n s). apply elem_of_app. by right.
          - rewrite <- (take_drop n s). apply elem_of_app. by left. }
        by apply (Hdisj kv).
Qed.

Lemma insert_by_timestamp_sorted (x : entry) l :
  strict_weak_order older →
  StronglySorted (not_after older) l →
  StronglySorted (not_after older) (insert_by_timestamp older x l).
Proof.
  intros [Hasym Htrans]. induction 1 as [|y l Hl IH Hy]; simpl.
  - repeat constructor.
  - destruct (older (timestamp y.2) (timestamp x.2)) eqn:Hyx.
    + constructor; [exact IH|].
      rewrite insert_by_timestamp_perm. constructor; [|done].
      by apply Hasym.
    + constructor; [by constructor|]. constructor; [done|].
      eapply Forall_impl; [exact Hy|]. intros z Hz. by eapply Htrans.
Qed.

Lemma sorted_by_timestamp_sorted (l : list entry) :
  strict_weak_order older →
  StronglySorted (not_after older) (sorted_by_timestamp older l).
Proof.
  intros Horder. induction l as [|x l IH]; simpl; [constructor|].
  by apply insert_by_timestamp_sorted.
Qed.

Lemma sorted_app_order (l1 l2 : list entry) a b :
  StronglySorted (not_after older) (l1 ++ l2) → a ∈ l1 → b ∈ l2 → not_after older a b.
Proof.
  induction l1 as [|x l1 IH]; simpl; [by intros _ ?%elem_of_nil|].
  intros Hs [->|Ha]%elem_of_cons Hb.
  - apply StronglySorted_inv in Hs as [_ Hx].
    rewrite Forall_forall in Hx. apply Hx, elem_of_app. by right.
  - apply StronglySorted_inv in Hs as [Hs _]. by apply IH.
Qed.

Local Abbreviation fresh now self :=
  (List.filter
     (λ kv : entry, negb (expired now (timestamp kv.2) (cache_expiry self)))
     (intent_cache self)).

Lemma clean_cache_unfold now (self : IntentProvider time) :
  NoDup (dict_keys (intent_cache self)) →
  intent_cache (clean_cache expired older now self)
  = if Z.of_nat (length (fresh now self)) >? cache_max_size self then
      dict_del_all (fresh now self)
        (map fst
           (take (Z.to_nat (Z.of_nat (length (fresh now self))
                            - cache_max_size self))
                 (sorted_by_timestamp older (fresh now self))))
    else fresh now self.
Proof.
  intros Hkeys. unfold clean_cache. simpl.
  rewrite (unexpired_kept now self Hkeys).
  destruct (_ >? _); [|done].
  by rewrite (Permutation_length (sorted_by_timestamp_perm _)).
Qed.

Lemma clean_cache_size now (self : IntentProvider time) :
  NoDup (dict_keys (intent_cache self)) →
  0 <= cache_max_size self →
  Z.of_nat (length (intent_cache (clean_cache expired older now self)))
  = Z.min (Z.of_nat (length (fresh now self))) (cache_max_size self).
Proof.
  intros Hkeys Hmax. rewrite (clean_cache_unfold now self Hkeys).
  destruct (Z.gtb_spec (Z.of_nat (length (fresh now self)))
              (cache_max_size self)) as [Hover|Hfits]; [|lia].
  rewrite evict_perm.
  - rewrite length_drop, (Permutation_length (sorted_by_timestamp_perm _)).
    lia.
  - eapply NoDup_keys_sublist; [apply List_filter_sublist | done].
Qed.

Lemma clean_cache_fresh now (self : IntentProvider time) :
  intent_cache (clean_cache expired older now self)
    `sublist_of` intent_cache self
  ∧ Forall (λ kv, expired now (timestamp kv.2) (cache_expiry self) = false)
      (intent_cache (clean_cache expired older now self))
  ∧ cache_expiry (clean_cache expired older now self)
    = cache_expiry self
  ∧ cache_max_size (clean_cache expired older now self)
    = cache_max_size self.
Proof.
  unfold clean_cache. simpl.
  set (c1 := dict_del_all (intent_cache self) _).
  assert (c1 `sublist_of` intent_cache self) as Hsub1
    by apply dict_del_all_sublist.
  assert (∀ kv, kv ∈ c1 →
            expired now (timestamp kv.2) (cache_expiry self) = false)
    as Hfresh1.
  { intros kv [Hin Hkey]%elem_of_dict_del_all.
    apply not_true_is_false. intros Hexp. apply Hkey.
    change (map fst ?l) with (fst <$> l). apply list_elem_of_fmap_2.
    by apply elem_of_List_filter. }
  split_and!; [| |done|done].
  - destruct (_ >? _); [|done].
    etrans; [apply dict_del_all_sublist | done].
  - apply Forall_forall. destruct (_ >? _); [|done].
    intros kv [Hin _]%elem_of_dict_del_all. by apply Hfresh1.
Qed.

(** X19.  After [clean_cache], the cache holds as many entries as were not
    expired, or [cache_max_size] when that is fewer (keys are unique, as in
    a dict, and the bound is not negative). *)
Theorem cache_size_after_clean now (self : IntentProvider time) :
  NoDup (dict_keys (intent_cache self)) →
  0 <= cache_max_size self →
  Z.of_nat (length (intent_cache (clean_cache expired older now self)))
  = Z.min (Z.of_nat (length (fresh now self))) (cache_max_size self).
Proof. apply clean_cache_size. Qed.

(** X20.  After [clean_cache], no entry of the cache is expired; the
    entries left are entries of the cache before, unchanged and in the same
    order; the two settings are untouched. *)
Theorem clean_cache_keeps_only_fresh now (self : IntentProvider time) :
  intent_cache (clean_cache expired older now self)
    `sublist_of` intent_cache self
  ∧ Forall (λ kv, expired now (timestamp kv.2) (cache_expiry self) = false)
      (intent_cache (clean_cache expired older now self))
  ∧ cache_expiry (clean_cache expired older now self)
    = cache_expiry self
  ∧ cache_max_size (clean_cache expired older now self)
    = cache_max_size self.
Proof. apply clean_cache_fresh. Qed.

(** X21.  When the entries that are not expired fit in the cache,
    [clean_cache] keeps each of them and drops exactly the expired ones. *)
Theorem fresh_entries_kept_within_capacity now (self : IntentProvider time) :
  NoDup (dict_keys (intent_cache self)) →
  Z.of_nat (length (fresh now self)) <= cache_max_size self →
  intent_cache (clean_cache expired older now self) = fresh now self.
Proof.
  intros Hkeys Hfits. rewrite (clean_cache_unfold now self Hkeys).
  destruct (Z.gtb_spec (Z.of_nat (length (fresh now self)))
              (cache_max_size self)); [lia | done].
Qed.

(** X22.  When [clean_cache] drops an entry that is not expired, no entry
    it keeps is older than the dropped one. *)
Theorem eviction_takes_the_oldest now (self : IntentProvider time) kept gone :
  NoDup (dict_keys (intent_cache self)) →
  strict_weak_order older →
  kept ∈ intent_cache (clean_cache expired older now self) →
  gone ∈ intent_cache self →
  expired now (timestamp gone.2) (cache_expiry self) = false →
  gone ∉ intent_cache (clean_cache expired older now self) →
  older (timestamp kept.2) (timestamp gone.2) = false.
Proof.
  intros Hkeys Horder Hkept Hgone Hfresh Hout.
  rewrite (clean_cache_unfold now self Hkeys) in Hkept, Hout.
  assert (gone ∈ fresh now self) as Hgone'.
  { apply elem_of_List_filter. split; [done|]. by rewrite Hfresh. }
  destruct (_ >? _); [|done].
  assert (NoDup (dict_keys (fresh now self))) as Hkeys'.
  { eapply NoDup_keys_sublist; [apply List_filter_sublist | done]. }
  set (n := Z.to_nat _) in *.
  rewrite (evict_perm _ n Hkeys') in Hkept, Hout.
  set (s := sorted_by_timestamp older (fresh now self)) in *.
  assert (gone ∈ take n s) as Hgone_take.
  { assert (gone ∈ s) as Hs
      by (unfold s; by rewrite (sorted_by_timestamp_perm (fresh now self))).
    rewrite <- (take_drop n s) in Hs. by apply elem_of_app in Hs as [?|?]. }
  apply (sorted_app_order (take n s) (drop n s) gone kept); [|done|done].
  rewrite take_drop. by apply sorted_by_timestamp_sorted.
Qed.

(** X23.  Cleaning twice at the same time is cleaning once. *)
Theorem clean_cache_idempotent now (self : IntentProvider time) :
  NoDup (dict_keys (intent_cache self)) →
  0 <= cache_max_size self →
  clean_cache expired older now
    (clean_cache expired older now self)
  = clean_cache expired older now self.
Proof.
  intros Hkeys Hmax.
  set (self' := clean_cache expired older now self).
  destruct (clean_cache_fresh now self)
    as (Hsub & Hfresh & Hexp & Hcap).
  fold self' in Hsub, Hfresh, Hexp, Hcap.
  assert (NoDup (dict_keys (intent_cache self'))) as Hkeys'
    by by eapply NoDup_keys_sublist.
  assert (fresh now self' = intent_cache self') as Hall.
  { rewrite Hexp. clear -Hfresh.
    induction Hfresh as [|kv l Hkv _ IH]; simpl; [done|].
    rewrite Hkv. simpl. by f_equal. }
  assert (Z.of_nat (length (intent_cache self')) <= cache_max_size self)
    as Hsize.
  { unfold self'. rewrite (clean_cache_size now self Hkeys Hmax). lia. }
  assert (intent_cache (clean_cache expired older now self')
          = intent_cache self') as Hsame.
  { rewrite (clean_cache_unfold now self' Hkeys'), Hall, Hcap.
    destruct (Z.gtb_spec (Z.of_nat (length (intent_cache self')))
                (cache_max_size self)); [lia | done]. }
  change (clean_cache expired older now self')
    with (MkIntentProvider
            (intent_cache (clean_cache expired older now self'))
            (cache_expiry self') (cache_max_size self')).
  rewrite Hsame. clearbody self'. by destruct self'.
Qed.

End CacheFacts.

Import Seconds.

Lemma seconds_order : strict_weak_order older.
Proof.
  split; unfold older.
  - intros a b ?%Z.ltb_lt. apply Z.ltb_ge. lia.
  - intros a b c ?%Z.ltb_ge ?%Z.ltb_ge. apply Z.ltb_ge. lia.
Qed.

Lemma cache_size_after_clean_witness :
  Z.of_nat (length (intent_cache (clean_cache expired older 1000 crowded)))
  = Z.min 3 2.
Proof.
  apply (cache_size_after_clean expired older 1000 crowded).
  - unfold dict_keys. compute_done.
  - simpl. lia.
Defined.

Lemma eviction_takes_the_oldest_witness :
  older 990 900 = false.
Proof.
  apply (eviction_takes_the_oldest expired older 1000 crowded
           ("c", MkEntry "continue_chat" 990) ("b", MkEntry "get_time" 900)).
  - unfold dict_keys. compute_done.
  - exact seconds_order.
  - compute_done.
  - compute_done.
  - reflexivity.
  - compute_done.
Defined.

Lemma fresh_entries_kept_within_capacity_witness :
  intent_cache (clean_cache expired older 1000 roomy)
  = List.filter
      (λ kv, negb (expired 1000 (timestamp kv.2) (cache_expiry roomy)))
      (intent_cache roomy).
Proof.
  apply (fresh_entries_kept_within_capacity expired older 1000 roomy).
  - unfold dict_keys. compute_done.
  - vm_compute. discriminate.
Defined.

Lemma clean_cache_idempotent_witness :
  clean_cache expired older 1000 (clean_cache expired older 1000 crowded)
  = clean_cache expired older 1000 crowded.
Proof.
  apply (clean_cache_idempotent expired older 1000 crowded).
  - unfold dict_keys. compute_done.
  - simpl. lia.
Defined.
